(** * bsf: the [oci] command, artifact resolution and build orchestration

    A shallow embedding of
    - [cmd/oci]: [ProcessPlatformAndConfig], [getNewName], [genOCIAttrName],
      [modifyDockerfileWithTag] and the [Run] function of [OCICmd];
    - [pkg/hcl2nix/config.go]: [ReadHclFile], [WriteConfig], [ModifyConfig];
    together with the few functions of Go's [strings] package they call.

    Go strings are byte strings ([string]); a Go [error] is its message,
    [nil] being [None]; the package-level variables (the flags of the
    command), the file system, the standard output and the [Config] object
    behind the pointer [conf] are threaded explicitly as a state.  What
    other packages provide ([platformutils.FindPlatform], the [Validate]
    method, the HCL library, [builddocker.ModifyDockerfile]) is a parameter
    of the functions that call it. *)

From Stdlib Require Import String Ascii List ZArith Lia Bool.
From stdpp Require Import base option list gmap strings.
Import ListNotations.

Local Open Scope string_scope.
Local Open Scope Z_scope.

(** A Go [error]: [None] is [nil], [Some msg] an error whose [Error()] is
  [msg]. *)
Definition error : Type := option string.

(* ===================================================================== *)
(** ** Package [strings] *)
(* ===================================================================== *)

Module strings.

(** [strings.Index(s, substr)]: position of the first occurrence of
    [substr] in [s], or [-1]. *)
Fixpoint Index (s substr : string) : Z :=
  if String.prefix substr s then 0
  else match s with
       | EmptyString => -1
       | String _ s' =>
           let i := Index s' substr in
           if i <? 0 then -1 else i + 1
       end.

(** [strings.Contains(s, substr)] is [Index(s, substr) >= 0]. *)
Definition Contains (s substr : string) : bool := 0 <=? Index s substr.

(** [strings.Join(elems, sep)]. *)
Fixpoint Join (elems : list string) (sep : string) : string :=
  match elems with
  | [] => ""
  | [e] => e
  | e :: rest => e ++ sep ++ Join rest sep
  end.

(** [s[n:]]. *)
Fixpoint drop (n : nat) (s : string) : string :=
  match n, s with
  | O, _ => s
  | S n', String _ s' => drop n' s'
  | S _, EmptyString => EmptyString
  end.

(** [s[:n]]. *)
Definition take (n : nat) (s : string) : string := String.substring 0 n s.

(** [explode(s, -1)], for an empty separator: one piece per byte here (Go
  cuts at UTF-8 sequences); the command never splits at the empty
  separator. *)
Fixpoint explode (s : string) : list string :=
  match s with
  | EmptyString => []
  | String c s' => String c EmptyString :: explode s'
  end.

(** The loop of [genSplit(s, sep, 0, -1)]: cut at each occurrence of [sep]
    until [Index] is negative.  Every round removes at least one byte when
    [sep] is not empty, so [String.length s] rounds are enough. *)
Fixpoint genSplit (rounds : nat) (s sep : string) : list string :=
  match rounds with
  | O => [s]
  | S r =>
      let m := Index s sep in
      if m <? 0 then [s]
      else take (Z.to_nat m) s
             :: genSplit r (drop (Z.to_nat m + String.length sep) s) sep
  end.

(** [strings.Split(s, sep)]. *)
Definition Split (s sep : string) : list string :=
  match sep with
  | EmptyString => explode s
  | _ => genSplit (String.length s) s sep
  end.

End strings.

(* ===================================================================== *)
(** ** Package [hcl2nix]: the configuration model *)
(* ===================================================================== *)

(** [Packages] holds package parameters. *)
Record Packages : Type := mkPackages {
  Development : list string;
  Runtime : list string
}.

(** Modelled from the spec: the declaration of [OCIArtifact] is not in
    [config.go].  It has a [Name] (the final image reference, possibly
    [repo:tag]), an [Artifact] (the label that selects it on the command
    line) and further build parameters, kept here as an uninterpreted
    list. *)
Record OCIArtifact : Type := mkOCIArtifact {
  Artifact : string;
  Name : string;
  BuildParams : list string
}.

(** The zero value [OCIArtifact{}]. *)
Definition zeroOCIArtifact : OCIArtifact := mkOCIArtifact "" "" [].

(** [GitHubRelease] holds github release parameters. *)
Record GitHubRelease : Type := mkGitHubRelease {
  Owner : string;
  Repo : string;
  App : string;
  Dir : string
}.

(** [Config] for hcl2nix.  The per-ecosystem blocks ([GoModule],
    [PoetryApp], [RustApp], [JsNpmApp]) and [ConfigFiles] are declared
    elsewhere; a block that is present is kept as its attribute list. *)
Record Config : Type := mkConfig {
  Packages_ : Packages;
  GoModule : option (list string);
  PoetryApp : option (list string);
  RustApp : option (list string);
  JsNpmApp : option (list string);
  OCIArtifact_ : list OCIArtifact;
  ConfigFiles : list (list string);
  GitHubReleases : list GitHubRelease
}.

(** [config.OCIArtifact = l]. *)
Definition setOCIArtifact (c : Config) (l : list OCIArtifact) : Config :=
  mkConfig (Packages_ c) (GoModule c) (PoetryApp c) (RustApp c) (JsNpmApp c)
           l (ConfigFiles c) (GitHubReleases c).

(** [artifact.Name = n]. *)
Definition setName (a : OCIArtifact) (n : string) : OCIArtifact :=
  mkOCIArtifact (Artifact a) n (BuildParams a).

(* ===================================================================== *)
(** ** Package [oci]: flags and the pure helpers *)
(* ===================================================================== *)

(** The package-level variables bound to the command's flags. *)
Record Flags : Type := mkFlags {
  platform : string;
  output : string;
  tag : string;
  path : string;
  push : bool;
  loadDocker : bool;
  loadPodman : bool;
  devDeps : bool;
  dfSwap : bool
}.

Definition supportedPlatforms : list string := ["linux/amd64"; "linux/arm64"].

(** [getNewName]: [fmt.Sprintf("%s:%s", a, b)] is [a ++ ":" ++ b]. *)
Definition getNewName (artifact : OCIArtifact) (tag : string)
  : string * error :=
  let newName :=
    if strings.Contains (Name artifact) ":" then
      let parts := strings.Split (Name artifact) ":" in
      match parts with
      | p0 :: _ => p0 ++ ":" ++ tag
      | [] => Name artifact ++ ":" ++ tag
      end
    else Name artifact ++ ":" ++ tag in
  (newName, None).

(** [genOCIAttrName]; it reads the package-level [devDeps], here the
    field of [fl]. *)
Definition genOCIAttrName (fl : Flags) (env platform : string)
    (artifact : OCIArtifact) : string :=
  let arch :=
    if String.eqb platform "linux/amd64" then "x86_64-linux"
    else if String.eqb platform "linux/arm64" then "aarch64-linux"
    else "unknown" in
  let base := "bsf/.#ociImages." ++ arch ++ ".ociImage_" ++ env ++ "_" in
  if String.eqb env "pkgs" then
    if devDeps fl then base ++ "dev-as-dir"
    else base ++ "runtime-as-dir"
  else
    if devDeps fl then base ++ "app_with_dev-as-dir"
    else base ++ "app-as-dir".


(* ===================================================================== *)
(** ** The process: flags, file system, standard output *)
(* ===================================================================== *)

(** The styles of [cmd/styles] used by the command. *)
Inductive Style : Type := HintStyle | ErrorStyle | SucessStyle | HighlightStyle.

(** [style.Render(strs...)]: the operands joined by a space, in [style]. *)
Definition Render (st : Style) (strs : list string) : Style * string :=
  (st, strings.Join strs " ").

(** What one invocation of the command can read and change: the flag
    variables, the files (path to contents), the paths that refuse to be
    written, the lines printed so far, and the [Config] object that the
    pointer [conf] designates once [ReadHclFile] has allocated it. *)
Record State : Type := mkState {
  flags : Flags;
  fs : gmap string string;
  denied : gset string;
  stdout : list (Style * string);
  confObj : option Config
}.

Definition setFlags (s : State) (f : Flags) : State :=
  mkState f (fs s) (denied s) (stdout s) (confObj s).
Definition setFs (s : State) (m : gmap string string) : State :=
  mkState (flags s) m (denied s) (stdout s) (confObj s).
Definition setStdout (s : State) (o : list (Style * string)) : State :=
  mkState (flags s) (fs s) (denied s) o (confObj s).
Definition setConfObj (s : State) (c : option Config) : State :=
  mkState (flags s) (fs s) (denied s) (stdout s) c.

(** [platform = p]. *)
Definition setPlatform (f : Flags) (p : string) : Flags :=
  mkFlags p (output f) (tag f) (path f) (push f) (loadDocker f)
          (loadPodman f) (devDeps f) (dfSwap f).

(** A computation either returns a value or ends the process with
    [os.Exit(code)]. *)
Inductive Res (A : Type) : Type :=
| Ret (a : A)
| Exited (code : Z).
Arguments Ret {A} a.
Arguments Exited {A} code.

Definition M (A : Type) : Type := State -> State * Res A.

Definition ret {A : Type} (a : A) : M A := fun s => (s, Ret a).

Definition bind {A B : Type} (c : M A) (k : A -> M B) : M B :=
  fun s =>
    match c s with
    | (s', Ret a) => k a s'
    | (s', Exited code) => (s', Exited code)
    end.

Notation "x <- c ;; k" := (bind c (fun x => k))
  (at level 100, c at next level, right associativity).
Notation "c ;; k" := (bind c (fun _ => k))
  (at level 100, right associativity).

(** Reading and assigning the package-level variables. *)
Definition getFlags : M Flags := fun s => (s, Ret (flags s)).
Definition putFlags (f : Flags) : M unit := fun s => (setFlags s f, Ret tt).

(** [conf] now points to a fresh [Config] object. *)
Definition allocConf (c : Config) : M unit :=
  fun s => (setConfObj s (Some c), Ret tt).

(** [os.Exit(code)]. *)
Definition Exit {A : Type} (code : Z) : M A := fun s => (s, Exited code).

(** [fmt.Println(line)]. *)
Definition Println (line : Style * string) : M unit :=
  fun s => (setStdout s (stdout s ++ [line])%list, Ret tt).

(** [os.ReadFile(name)] (and [os.Open] followed by reading the file).  The
    paths of [fs] are regular files the process may read, so a read fails
    only for a path that is not there; what is stated of a failed read
    holds for whatever error the read returns. *)
Definition os_ReadFile (name : string) : M (string * error) :=
  fun s =>
    match fs s !! name with
    | Some data => (s, Ret (data, None))
    | None =>
        (s, Ret ("", Some ("open " ++ name ++ ": no such file or directory")))
    end.

(** [os.WriteFile(name, data, 0644)]. *)
Definition os_WriteFile (name data : string) : M error :=
  fun s =>
    if decide (name ∈ denied s)
    then (s, Ret (Some ("open " ++ name ++ ": permission denied")))
    else (setFs s (<[name := data]> (fs s)), Ret None).

(** The recurring
    [if err != nil { fmt.Println(styles.ErrorStyle.Render("error: ", err.Error())); os.Exit(1) }]. *)
Definition exitOnError (err : error) : M unit :=
  match err with
  | Some msg => Println (Render ErrorStyle ["error: "; msg]) ;; Exit 1
  | None => ret tt
  end.

(** The line feed of ["\n"]. *)
Definition LF : string := String (ascii_of_nat 10) EmptyString.

(* ===================================================================== *)
(** ** [pkg/hcl2nix/config.go] *)
(* ===================================================================== *)

Section Hcl2nix.

(** The HCL library: [hclDecode src] is what [parser.ParseHCL] and
    [gohcl.DecodeBody] make of the document, either the configuration or
    the diagnostics text written to [dstErr] with the error returned. *)
Variable hclDecode : string -> Config + (string * string).

(** [gohcl.EncodeIntoBody] followed by [f.WriteTo(wr)]: the bytes that
    reach the writer and the error of the write. *)
Variable hclEncode : Config -> string * error.

(** [fmt.Errorf(format)] without operands. *)
Variable Errorf0 : string -> string.

(** [ReadConfig]: the configuration with a [nil] error, or [nil] with what
    was written to [dstErr] and the error. *)
Definition ReadConfig (src : string) : Config + (string * string) :=
  match hclDecode src with
  | inl config => inl config
  | inr (dstErr, err) => inr (dstErr, err)
  end.

(** [ReadHclFile] reads an HCL file: the configuration with a [nil] error,
    or [nil] with the error. *)
Definition ReadHclFile (fileName : string) : M (Config + string) :=
  r <- os_ReadFile fileName ;;
  match r with
  | (_, Some err) => ret (inr ("error: " ++ err))
  | (data, None) =>
      match ReadConfig data with
      | inr (dstErr, _) => ret (inr (Errorf0 dstErr))
      | inl conf => ret (inl conf)
      end
  end.

(** [WriteConfig] writes the configuration to a writer; the result is what
    the writer received. *)
Definition WriteConfig (config : Config) : string * error :=
  match hclEncode config with
  | (buf, Some err) => (buf, Some err)
  | (buf, None) => (buf, None)
  end.

(** The loop of [ModifyConfig] from index [i] on, [rest] being
    [config.OCIArtifact[i:]] and [arr] the whole slice: the new slice and
    [updated]. *)
Fixpoint modifyLoop (oldName : string) (artifact : OCIArtifact)
    (rest : list OCIArtifact) (i : nat) (arr : list OCIArtifact)
  : list OCIArtifact * bool :=
  match rest with
  | [] => (arr, false)
  | existingArtifact :: rest' =>
      if String.eqb (Name existingArtifact) oldName
      then (<[i := artifact]> arr, true)
      else modifyLoop oldName artifact rest' (S i) arr
  end.

(** [ModifyConfig] modifies the configuration that [config] points to,
    the object [confObj] of the state.  Reading through a [nil] pointer
    panics, and the Go runtime ends the process with status 2. *)
Definition ModifyConfig (oldName : string) (artifact : OCIArtifact) : M error :=
  fun s =>
    match confObj s with
    | None => (s, Exited 2)
    | Some config =>
        let '(arr, updated) :=
          modifyLoop oldName artifact (OCIArtifact_ config) 0
                     (OCIArtifact_ config) in
        let config' := setOCIArtifact config arr in
        let s1 := setConfObj s (Some config') in
        if updated then
          match WriteConfig config' with
          | (_, Some err) => (s1, Ret (Some err))
          | (buf, None) =>
              (err <- os_WriteFile "bsf.hcl" buf ;;
               match err with
               | Some e => ret (Some e)
               | None => ret None
               end) s1
          end
        else (s1, Ret None)
    end.

End Hcl2nix.

(* ===================================================================== *)
(** ** [cmd/oci]: resolution, Dockerfile patching and the command *)
(* ===================================================================== *)

Section Oci.

(** [platformutils.FindPlatform]: the operating system and architecture
    of a platform string, those of the host when the string is empty. *)
Variable FindPlatform : string -> string * string.

(** [ec.Validate(conf)] of [hcl2nix]: [nil] or the validation message. *)
Variable Validate : OCIArtifact -> Config -> option string.

(** [builddocker.ModifyDockerfile(file, devDeps, tag)], on the contents of
    the opened file: the resulting lines and the error. *)
Variable ModifyDockerfile : string -> bool -> string -> list string * error.

Variable hclDecode : string -> Config + (string * string).
Variable hclEncode : Config -> string * error.
Variable Errorf0 : string -> string.

(** The first loop of [ProcessPlatformAndConfig]: [pfound] after ranging
    over [sps]. *)
Fixpoint platformLoop (plat : string) (sps : list string) : bool :=
  match sps with
  | [] => false
  | sp :: rest =>
      if strings.Contains plat sp then true else platformLoop plat rest
  end.

(** The second loop of [ProcessPlatformAndConfig] over the artifacts [ecs]
    still to visit, [envNames] being the labels gathered so far: either the
    error returned from inside the loop, or [envNames], [found] and
    [artifact] when the loop is left. *)
Fixpoint artifactLoop (conf : Config) (envName : string)
    (ecs : list OCIArtifact) (envNames : list string)
  : string + (list string * bool * OCIArtifact) :=
  match ecs with
  | [] => inr (envNames, false, zeroOCIArtifact)
  | ec :: rest =>
      match Validate ec conf with
      | Some errStr =>
          inl ("Config for export block " ++ Name ec ++ " is invalid" ++ LF
               ++ " Error: " ++ errStr)
      | None =>
          if String.eqb (Artifact ec) envName
          then inr (envNames, true, ec)
          else artifactLoop conf envName rest (envNames ++ [Artifact ec])%list
      end
  end.

(** [ProcessPlatformAndConfig] processes the platform and config file.  The
    message of the platform error prints the package-level [platform] of
    [fl], not the parameter [plat]. *)
Definition ProcessPlatformAndConfig (fl : Flags) (conf : Config)
    (plat envName : string) : OCIArtifact * string * error :=
  let plat :=
    if String.eqb plat "" then
      let '(tos, tarch) := FindPlatform plat in tos ++ "/" ++ tarch
    else plat in
  let pfound := platformLoop plat supportedPlatforms in
  if negb pfound then
    (zeroOCIArtifact, "",
     Some ("Platform " ++ platform fl
           ++ " is not supported. Supported platforms are "
           ++ strings.Join supportedPlatforms ", "))
  else
    match artifactLoop conf envName (OCIArtifact_ conf) [] with
    | inl msg => (zeroOCIArtifact, "", Some msg)
    | inr (envNames, found, artifact) =>
        if negb found then
          (zeroOCIArtifact, "",
           Some ("error: No such environment found. Valid oci environment that can be built are: "
                 ++ strings.Join envNames ", "))
        else (artifact, plat, None)
    end.

(** [modifyDockerfileWithTag]. *)
Definition modifyDockerfileWithTag (path tag : string) (devDeps : bool)
  : M error :=
  let dockerfilePath :=
    if negb (String.eqb path "") then path ++ "/Dockerfile"
    else "./Dockerfile" in
  r <- os_ReadFile dockerfilePath ;;
  match r with
  | (_, Some err) => ret (Some err)
  | (file, None) =>
      match ModifyDockerfile file devDeps tag with
      | (_, Some err) => ret (Some err)
      | (resLines, None) =>
          err <- os_WriteFile dockerfilePath (strings.Join resLines LF) ;;
          match err with
          | Some e => ret (Some e)
          | None => ret None
          end
      end
  end.

(** The tag branch of [Run]: with a tag and without [--df-swap], rename
    the artifact and persist the configuration.  It returns the local
    [artifact] as the rest of [Run] sees it. *)
Definition mutateName (artifact : OCIArtifact) : M OCIArtifact :=
  fl <- getFlags ;;
  if negb (String.eqb (tag fl) "") && negb (dfSwap fl) then
    let '(newName, err) := getNewName artifact (tag fl) in
    exitOnError err ;;
    let oldName := Name artifact in
    let artifact := setName artifact newName in
    err <- ModifyConfig hclEncode oldName artifact ;;
    exitOnError err ;;
    ret artifact
  else ret artifact.

(** The [--df-swap] branch of [Run]. *)
Definition patchDockerfile : M unit :=
  fl <- getFlags ;;
  if dfSwap fl then
    (if negb (String.eqb (tag fl) "") then
       err <- modifyDockerfileWithTag (path fl) (tag fl) (devDeps fl) ;;
       exitOnError err ;;
       Println (Render SucessStyle
                  ["dockerfile succesfully updated with tag:"; tag fl])
     else
       Println (Render HintStyle ["hint:"; "use --tag flag to define a tag"])) ;;
    Exit 1
  else ret tt.

(** The two branches together: the source lines from [if tag != "" && !dfSwap]
    to the end of [if dfSwap], the MutateOrPatch state of the pipeline. *)
Definition mutateOrPatch (artifact : OCIArtifact) : M OCIArtifact :=
  artifact <- mutateName artifact ;;
  patchDockerfile ;;
  ret artifact.

(** The [Run] function of [OCICmd].  [buildStates artifact] is the rest of
    the function once the [--df-swap] branch is passed: the initializers,
    git, the Builder, the lock file, the artifacts and the distribution
    steps, all of them calls to other packages. *)
Definition Run (buildStates : OCIArtifact -> M unit) (args : list string)
  : M unit :=
  match args with
  | [] =>
      Println (Render HintStyle
                 ["hint:"; "run `bsf oci <environment name>` to build an OCI image"]) ;;
      Exit 1
  | arg0 :: _ =>
      r <- ReadHclFile hclDecode Errorf0 "bsf.hcl" ;;
      match r with
      | inr err => exitOnError (Some err)
      | inl conf =>
          allocConf conf ;;
          fl <- getFlags ;;
          let '(artifact, p, err) :=
            ProcessPlatformAndConfig fl conf (platform fl) arg0 in
          exitOnError err ;;
          putFlags (setPlatform fl p) ;;
          artifact <- mutateOrPatch artifact ;;
          buildStates artifact
      end
  end.

End Oci.

(* ===================================================================== *)
(** ** [pkg/hcl2nix/config.go]: the package lists *)
(* ===================================================================== *)

(** [config.Packages = p]. *)
Definition setPackages (c : Config) (p : Packages) : Config :=
  mkConfig p (GoModule c) (PoetryApp c) (RustApp c) (JsNpmApp c)
           (OCIArtifact_ c) (ConfigFiles c) (GitHubReleases c).

(** [p.Development = l]. *)
Definition setDevelopment (p : Packages) (l : list string) : Packages :=
  mkPackages l (Runtime p).

(** [p.Runtime = l]. *)
Definition setRuntime (p : Packages) (l : list string) : Packages :=
  mkPackages (Development p) l.

Section Hcl2nixPackages.

Variable hclDecode : string -> Config + (string * string).
Variable hclEncode : Config -> string * error.

(** [update.ParsePackage]: the name and the version of a package string. *)
Variable ParsePackage : string -> string * string.

(** [bstrings.PreferNewSliceElements(existing, new, key)]. *)
Variable PreferNewSliceElements :
  list string -> list string -> (string -> string) -> list string.

(** [AddPackages] updates the configuration with new packages, appended to
    the existing ones.  The result is what the writer [wr] received and the
    error; the diagnostics of [ReadConfig] go to [io.Discard]. *)
Definition AddPackages (src : string) (packages : Packages) : string * error :=
  match ReadConfig hclDecode src with
  | inr (_, err) => ("", Some err)
  | inl existingConfig =>
      let parse := fun s => fst (ParsePackage s) in
      let existingConfig :=
        setPackages existingConfig
          (setDevelopment (Packages_ existingConfig)
             (PreferNewSliceElements
                (Development (Packages_ existingConfig))
                (Development packages) parse)) in
      let existingConfig :=
        setPackages existingConfig
          (setRuntime (Packages_ existingConfig)
             (PreferNewSliceElements
                (Runtime (Packages_ existingConfig))
                (Runtime packages) parse)) in
      match WriteConfig hclEncode existingConfig with
      | (buf, Some err) => (buf, Some err)
      | (buf, None) => (buf, None)
      end
  end.

(** [SetPackages] updates the configuration with new packages, which
    replace the existing ones. *)
Definition SetPackages (src : string) (packages : Packages) : string * error :=
  match ReadConfig hclDecode src with
  | inr (_, err) => ("", Some err)
  | inl existingConfig =>
      let existingConfig := setPackages existingConfig packages in
      match WriteConfig hclEncode existingConfig with
      | (buf, Some err) => (buf, Some err)
      | (buf, None) => (buf, None)
      end
  end.

End Hcl2nixPackages.

(* ===================================================================== *)
(** ** [cmd/oci]: the build states of [Run] *)
(* ===================================================================== *)

(** [output = o]. *)
Definition setOutput (f : Flags) (o : string) : Flags :=
  mkFlags (platform f) o (tag f) (path f) (push f) (loadDocker f)
          (loadPodman f) (devDeps f) (dfSwap f).

(** A call into another package or an external tool.  It returns to its
    caller; it may read and change the files; the package-level variables
    of [oci], the lines this command printed and the configuration behind
    [conf] are out of its reach. *)
Definition external {R : Type} (tool : State -> State * R) : M R :=
  fun s =>
    let '(s', r) := tool s in
    (mkState (flags s) (fs s') (denied s') (stdout s) (confObj s), Ret r).

(** The recurring
    [if err != nil { fmt.Println(styles.ErrorStyle.Render("error:", err.Error())); os.Exit(1) }]
    of the later build states, whose label has no trailing space. *)
Definition exitOnErrorTight (err : error) : M unit :=
  match err with
  | Some msg => Println (Render ErrorStyle ["error:"; msg]) ;; Exit 1
  | None => ret tt
  end.

Section BuildStates.

Variable FindPlatform : string -> string * string.

(** Values of other packages that [Run] only hands on: the search client
    and the file handlers of [binit], the lock file of [hcl2nix], the
    application details and the closure graph of [nixcmd]. *)
Variables SearchClient FileHandlers LockFile AppDetails Graph : Type.

(** What [Run] calls up to the generation of the artifacts. *)
Record BuildTools : Type := mkBuildTools {
  (** [binit.GetBSFInitializers()]. *)
  GetBSFInitializers : State -> State * (SearchClient * FileHandlers * error);
  (** [generate.Generate(fh, sc)]. *)
  Generate : FileHandlers -> SearchClient -> State -> State * error;
  (** [bgit.Add(path)]. *)
  gitAdd : string -> State -> State * error;
  (** [bgit.Ignore(path)]. *)
  gitIgnore : string -> State -> State * error;
  (** [nixcmd.Build(dir, attribute)]. *)
  nixBuild : string -> string -> State -> State * error;
  (** [json.Unmarshal(lockData, lockFile)] on a fresh [hcl2nix.LockFile]. *)
  jsonUnmarshal : string -> LockFile * error;
  (** [lockFile.App.Name]. *)
  lockAppName : LockFile -> string;
  (** [nixcmd.GetRuntimeClosureGraph(name, output, symlink)]. *)
  GetRuntimeClosureGraph :
    string -> string -> string -> State -> State * (AppDetails * Graph * error);
  (** [appDetails.Name = name]. *)
  setAppName : AppDetails -> string -> AppDetails;
  (** [build.GenerateArtifcats(output, symlink, lockFile, appDetails, graph, tos, tarch)]. *)
  GenerateArtifcats :
    string -> string -> LockFile -> AppDetails -> Graph -> string -> string ->
    State -> State * error
}.

(** What the distribution steps call. *)
Record DistTools : Type := mkDistTools {
  (** [builddocker.GetCurrentContext()]. *)
  GetCurrentContext : State -> State * (string * error);
  (** [builddocker.ReadContextEndpoints()]; the map may be [nil]. *)
  ReadContextEndpoints : State -> State * (option (gmap string string) * error);
  (** [oci.LoadDocker(endpoint, dir, name)]. *)
  LoadDocker : string -> string -> string -> State -> State * error;
  (** [oci.LoadPodman(dir, name)]. *)
  LoadPodman : string -> string -> State -> State * error;
  (** [oci.Push(dir, name)]. *)
  Push : string -> string -> State -> State * error
}.

Variable B : BuildTools.
Variable D : DistTools.

(** The endpoint handed to [oci.LoadDocker]: the context defaults to
    ["default"], a [nil] map to an empty one, and a context without an
    endpoint gets the local socket. *)
Definition dockerEndpoint (currentContext : string)
    (contextEP : option (gmap string string)) : string :=
  let currentContext :=
    if String.eqb currentContext "" then "default" else currentContext in
  let contextEP :=
    match contextEP with
    | None => ∅
    | Some m => m
    end in
  let contextEP :=
    match contextEP !! currentContext with
    | Some _ => contextEP
    | None => <[currentContext := "unix:///var/run/docker.sock"]> contextEP
    end in
  default "" (contextEP !! currentContext).

(** [if loadDocker { ... }]. *)
Definition loadDockerStep (artifact : OCIArtifact) : M unit :=
  fl <- getFlags ;;
  if loadDocker fl then
    Println (Render HighlightStyle ["Loading image to docker daemon..."]) ;;
    r <- external (GetCurrentContext D) ;;
    let '(currentContext, err) := r in
    let expectedInstall :=
      match err with
      | Some _ => false
      | None => true
      end in
    r <- external (ReadContextEndpoints D) ;;
    let '(contextEP, err) := r in
    let expectedInstall :=
      match err with
      | Some _ => false
      | None => expectedInstall
      end in
    err <- external (LoadDocker D (dockerEndpoint currentContext contextEP)
                       (output fl ++ "/result") (Name artifact)) ;;
    match err with
    | Some msg =>
        Println (Render ErrorStyle ["error:"; msg]) ;;
        (if negb expectedInstall
         then Println (Render ErrorStyle ["error:"; "Is Docker installed?"])
         else ret tt) ;;
        Exit 1
    | None =>
        Println (Render SucessStyle
                   ["Image " ++ Name artifact ++ " loaded to docker daemon"])
    end
  else ret tt.

(** [if loadPodman { ... }]. *)
Definition loadPodmanStep (artifact : OCIArtifact) : M unit :=
  fl <- getFlags ;;
  if loadPodman fl then
    Println (Render HighlightStyle ["Loading image to podman..."]) ;;
    err <- external (LoadPodman D (output fl ++ "/result") (Name artifact)) ;;
    exitOnErrorTight err ;;
    Println (Render SucessStyle
               ["Image " ++ Name artifact ++ " loaded to podman"])
  else ret tt.

(** [if push { ... }]. *)
Definition pushStep (artifact : OCIArtifact) : M unit :=
  fl <- getFlags ;;
  if push fl then
    Println (Render HighlightStyle ["Pushing image to registry..."]) ;;
    err <- external (Push D (output fl ++ "/result") (Name artifact)) ;;
    exitOnErrorTight err ;;
    Println (Render SucessStyle
               ["Image " ++ Name artifact ++ " pushed to registry"])
  else ret tt.

(** [symlink := "/result"]. *)
Definition symlink : string := "/result".

(** PrepareWorkspace: the initializers, the generated files, the default
    of [output], and git. *)
Definition prepareWorkspace : M unit :=
  r <- external (GetBSFInitializers B) ;;
  let '(sc, fh, err) := r in
  exitOnError err ;;
  err <- external (Generate B fh sc) ;;
  exitOnError err ;;
  fl <- getFlags ;;
  (if String.eqb (output fl) "" then putFlags (setOutput fl "bsf-result")
   else ret tt) ;;
  err <- external (gitAdd B "bsf/") ;;
  exitOnError err ;;
  fl <- getFlags ;;
  err <- external (gitIgnore B (output fl ++ "/")) ;;
  exitOnError err.

(** InvokeBuilder. *)
Definition invokeBuilder (artifact : OCIArtifact) : M unit :=
  fl <- getFlags ;;
  err <- external (nixBuild B (output fl ++ symlink)
                     (genOCIAttrName fl (Artifact artifact) (platform fl)
                        artifact)) ;;
  exitOnError err ;;
  Println (Render HighlightStyle ["Generating artifacts..."]).

(** ReadLockAndClosure. *)
Definition readLockAndClosure : M (LockFile * AppDetails * Graph) :=
  fl <- getFlags ;;
  r <- os_ReadFile "bsf.lock" ;;
  let '(lockData, err) := r in
  exitOnErrorTight err ;;
  let '(lockFile, err) := jsonUnmarshal B lockData in
  exitOnErrorTight err ;;
  r <- external (GetRuntimeClosureGraph B (lockAppName B lockFile)
                   (output fl) symlink) ;;
  let '(appDetails, graph, err) := r in
  exitOnErrorTight err ;;
  ret (lockFile, appDetails, graph).

(** GenerateArtifacts. *)
Definition generateArtifacts (artifact : OCIArtifact)
    (lockFile : LockFile) (appDetails : AppDetails) (graph : Graph)
  : M unit :=
  fl <- getFlags ;;
  let appDetails := setAppName B appDetails (Name artifact) in
  let '(tos, tarch) := FindPlatform (platform fl) in
  err <- external (GenerateArtifcats B (output fl) symlink lockFile
                     appDetails graph tos tarch) ;;
  exitOnErrorTight err ;;
  Println (Render SucessStyle
             ["Build completed successfully, please check the "
              ++ output fl ++ " directory"]).

(** [Run] from [binit.GetBSFInitializers()] to the message that the build
    completed. *)
Definition buildAndGenerate (artifact : OCIArtifact) : M unit :=
  prepareWorkspace ;;
  invokeBuilder artifact ;;
  r <- readLockAndClosure ;;
  let '(lockFile, appDetails, graph) := r in
  generateArtifacts artifact lockFile appDetails graph.

(** The rest of [Run] after the [--df-swap] branch. *)
Definition buildStates (artifact : OCIArtifact) : M unit :=
  buildAndGenerate artifact ;;
  loadDockerStep artifact ;;
  loadPodmanStep artifact ;;
  pushStep artifact.

End BuildStates.

Arguments prepareWorkspace {SearchClient FileHandlers LockFile AppDetails Graph} B.
Arguments invokeBuilder {SearchClient FileHandlers LockFile AppDetails Graph} B artifact.
Arguments readLockAndClosure {SearchClient FileHandlers LockFile AppDetails Graph} B.
Arguments generateArtifacts FindPlatform
  {SearchClient FileHandlers LockFile AppDetails Graph} B
  artifact lockFile appDetails graph.
Arguments buildAndGenerate FindPlatform
  {SearchClient FileHandlers LockFile AppDetails Graph} B artifact.
Arguments buildStates FindPlatform
  {SearchClient FileHandlers LockFile AppDetails Graph} B D artifact.

(* ===================================================================== *)
(** ** [pkg/langdetect/langdetect.go] *)
(* ===================================================================== *)

(** [ProjectType] is the type of project. *)
Definition ProjectType : Type := string.

(** [GoModule] is the project type for Go modules. *)
Definition GoModuleType : ProjectType := "GoModule".

(** [Unknown] is the project type for unknown project types. *)
Definition Unknown : ProjectType := "Unknown".

(** [ProjectDetails] holds the details of the current project. *)
Record ProjectDetails : Type := mkProjectDetails {
  Entrypoint : string;
  ProjectName : string
}.

Section Langdetect.

(** [os.Getwd()]. *)
Variable Getwd : State -> string * error.

(** [filepath.Join(dir, pattern)]. *)
Variable filepath_Join : string -> string -> string.

(** [filepath.Glob(pattern)]: the matching paths. *)
Variable filepath_Glob : string -> State -> list string * error.

(** [filepath.Base(path)]. *)
Variable filepath_Base : string -> string.

(** [strings.TrimSpace(s)]. *)
Variable TrimSpace : string -> string.

(** The loop over the lines of [go.mod]: [moduleName] when it is left. *)
Fixpoint moduleLoop (lines : list string) : string :=
  match lines with
  | [] => ""
  | line :: rest =>
      if String.prefix "module" line then TrimSpace (strings.drop 6 line)
      else moduleLoop rest
  end.

(** The loop of [FindProjectType] over the files of the directory. *)
Fixpoint projectLoop (files : list string)
  : M (ProjectType * option ProjectDetails * error) :=
  match files with
  | [] => ret (Unknown, None, None)
  | file :: rest =>
      if String.eqb (filepath_Base file) "go.mod" then
        r <- os_ReadFile file ;;
        match r with
        | (_, Some err) => ret ("", None, Some err)
        | (f, None) =>
            let lines := strings.Split f LF in
            ret (GoModuleType,
                 Some (mkProjectDetails "" (moduleLoop lines)), None)
        end
      else projectLoop rest
  end.

(** [FindProjectType] detects the programming language/package manager of
    the current project. *)
Definition FindProjectType : M (ProjectType * option ProjectDetails * error) :=
  fun s =>
    match Getwd s with
    | (_, Some err) => (s, Ret ("", None, Some err))
    | (currentDir, None) =>
        match filepath_Glob (filepath_Join currentDir "*") s with
        | (_, Some err) => (s, Ret ("", None, Some err))
        | (files, None) => projectLoop files s
        end
    end.

End Langdetect.

(* ===================================================================== *)
(** ** Vocabulary of the properties and sample inputs *)
(* ===================================================================== *)

(** [sub] occurs in [s]. *)
Definition substring_of (sub s : string) : Prop :=
  exists a b, s = a ++ sub ++ b.

(** What the build states keep of a state: the configuration in memory,
    every flag but [output], which may only go from empty to
    ["bsf-result"], and the lines already printed. *)
Definition buildKeeps (s s' : State) : Prop :=
  confObj s' = confObj s
  /\ setOutput (flags s') (output (flags s)) = flags s
  /\ (output (flags s') = output (flags s)
      \/ (output (flags s) = "" /\ output (flags s') = "bsf-result"))
  /\ exists out, stdout s' = (stdout s ++ out)%list.

(** A computation that keeps what the build states keep and that, when it
    ends the process, does so with status 1 just after printing an error
    line. *)
Definition orderly {A : Type} (c : M A) : Prop :=
  forall s s' r,
    c s = (s', r) ->
    buildKeeps s s'
    /\ match r with
       | Exited code =>
           code = 1 /\ exists out msg, stdout s' = (out ++ [(ErrorStyle, msg)])%list
       | Ret _ => True
       end.

(** The flags as [init] leaves them when the command line sets none. *)
Definition noFlags : Flags :=
  mkFlags "" "" "" "" false false false false false.

Definition sampleApp : OCIArtifact := mkOCIArtifact "svc" "app" [].

Definition sampleAppV1 : OCIArtifact := mkOCIArtifact "svc" "app:v1" [].

(** The platform of the host, as [ProcessPlatformAndConfig] builds it from
    [FindPlatform] when no platform is given. *)
Definition hostPlatform (FindPlatform : string -> string * string) : string :=
  let '(tos, tarch) := FindPlatform "" in tos ++ "/" ++ tarch.

(** The platform string that is checked against the allowlist. *)
Definition resolvedPlatform (FindPlatform : string -> string * string)
    (plat : string) : string :=
  if String.eqb plat "" then hostPlatform FindPlatform else plat.

(** A platform string contains an entry of the allowlist. *)
Definition supported (p : string) : Prop :=
  substring_of "linux/amd64" p \/ substring_of "linux/arm64" p.

(** A host that is a linux/amd64 machine. *)
Definition amd64Host (plat : string) : string * string :=
  if String.eqb plat "" then ("linux", "amd64")
  else match strings.Split plat "/" with
       | tos :: tarch :: _ => (tos, tarch)
       | _ => ("", "")
       end.

(** A host that is a darwin/arm64 machine. *)
Definition darwinHost (plat : string) : string * string :=
  if String.eqb plat "" then ("darwin", "arm64")
  else match strings.Split plat "/" with
       | tos :: tarch :: _ => (tos, tarch)
       | _ => ("", "")
       end.

(** A validation that rejects an artifact without a name. *)
Definition nameRequired (ec : OCIArtifact) (conf : Config) : option string :=
  if String.eqb (Name ec) "" then Some "name is required" else None.

Definition configOf (arts : list OCIArtifact) : Config :=
  mkConfig (mkPackages [] []) None None None None arts [] [].

Definition svc : OCIArtifact := mkOCIArtifact "svc" "svc:latest" [].

Definition web : OCIArtifact := mkOCIArtifact "web" "web:latest" [].

Definition unnamed : OCIArtifact := mkOCIArtifact "tools" "" [].

(** An encoder that writes one artifact name per line. *)
Definition namesEncode (c : Config) : string * error :=
  (strings.Join (map Name (OCIArtifact_ c)) LF, None).

Definition stateOf (fl : Flags) (files : gmap string string)
    (c : option Config) : State :=
  mkState fl files ∅ [] c.

(** A decoder for documents that hold the image name of one artifact
    labelled [svc]. *)
Definition nameDecode (src : string) : Config + (string * string) :=
  if String.eqb src "" then inr ("bsf.hcl: no oci block", "no oci block")
  else inl (configOf [mkOCIArtifact "svc" src []]).

(** A Dockerfile rewriter that keeps every line. *)
Definition keepLines (file : string) (dev : bool) (tg : string)
  : list string * error :=
  (strings.Split file LF, None).

(** A format string without verbs prints as itself. *)
Definition plainFormat (format : string) : string := format.

(** [bsf oci --platform linux/amd64 --tag v2]. *)
Definition tagFlags : Flags :=
  mkFlags "linux/amd64" "" "v2" "" false false false false false.

(** Build states that do nothing. *)
Definition noBuild (artifact : OCIArtifact) : M unit := ret tt.

(** [bsf oci --platform linux/amd64 --df-swap]. *)
Definition dfSwapFlags : Flags :=
  mkFlags "linux/amd64" "" "" "" false false false false true.


(** Two artifacts with the same image name. *)
Definition svcCopy : OCIArtifact := mkOCIArtifact "copy" "svc:latest" [].


(** [bsf oci --platform linux/amd64 --dev]. *)
Definition devFlags : Flags :=
  mkFlags "linux/amd64" "" "" "" false false false true false.

(** [bsf oci --platform linux/amd64]. *)
Definition plainFlags : Flags :=
  mkFlags "linux/amd64" "" "" "" false false false false false.

(** Documents that hold one development package. *)
Definition packageDecode (src : string) : Config + (string * string) :=
  if String.eqb src "" then inr ("bsf.hcl: no packages", "no packages")
  else inl (mkConfig (mkPackages [src] []) None None None None [] [] []).

Definition packageEncode (c : Config) : string * error :=
  (strings.Join (Development (Packages_ c)) ",", None).

(** Tools that succeed; the Builder leaves a lock file. *)
Definition okBuildTools : BuildTools unit unit string unit unit :=
  mkBuildTools unit unit string unit unit
    (fun s => (s, (tt, tt, None)))
    (fun _ _ s => (s, None))
    (fun _ s => (s, None))
    (fun _ s => (s, None))
    (fun _ _ s => (setFs s (<["bsf.lock" := "svc"]> (fs s)), None))
    (fun lockData => (lockData, None))
    (fun lockFile => lockFile)
    (fun _ _ _ s => (s, (tt, tt, None)))
    (fun appDetails _ => appDetails)
    (fun _ _ _ _ _ _ _ s => (s, None)).

(** The same tools with a Builder that fails. *)
Definition brokenBuildTools : BuildTools unit unit string unit unit :=
  mkBuildTools unit unit string unit unit
    (fun s => (s, (tt, tt, None)))
    (fun _ _ s => (s, None))
    (fun _ s => (s, None))
    (fun _ s => (s, None))
    (fun _ _ s => (s, Some "nix build failed"))
    (fun lockData => (lockData, None))
    (fun lockFile => lockFile)
    (fun _ _ _ s => (s, (tt, tt, None)))
    (fun appDetails _ => appDetails)
    (fun _ _ _ _ _ _ _ s => (s, None)).

(** Distribution tools without a Docker context; loading and pushing
    succeed. *)
Definition okDistTools : DistTools :=
  mkDistTools
    (fun s => (s, ("", Some "no docker context")))
    (fun s => (s, (None, Some "no docker config")))
    (fun _ _ _ s => (s, None))
    (fun _ _ s => (s, None))
    (fun _ _ s => (s, None)).

(** A directory [/work] with a [README.md] and a [go.mod]. *)
Definition workDir (s : State) : string * error := ("/work", None).

Definition joinPath (dir pattern : string) : string := dir ++ "/" ++ pattern.

Definition workFiles (pattern : string) (s : State) : list string * error :=
  (["/work/README.md"; "/work/go.mod"], None).

Definition docsFiles (pattern : string) (s : State) : list string * error :=
  (["/work/README.md"; "/work/LICENSE"], None).

(** The last element of a slash-separated path. *)
Definition lastElement (path : string) : string :=
  List.last (strings.Split path "/") "".

(** Trimming of leading blanks. *)
Fixpoint trimLeft (s : string) : string :=
  match s with
  | String c s' => if Ascii.eqb c " " then trimLeft s' else s
  | EmptyString => EmptyString
  end.

(** The states in which [bsf oci --platform linux/amd64 svc] starts,
    without and with [--tag v2]. *)
Definition plainState : State :=
  stateOf plainFlags {[ "bsf.hcl" := "svc:latest" ]} None.

Definition tagState : State :=
  stateOf tagFlags {[ "bsf.hcl" := "svc:latest" ]} None.


Definition goModState : State :=
  stateOf noFlags
    {[ "/work/go.mod" := "// demo" ++ LF ++ "module example.com/demo" ++ LF
                          ++ "go 1.21" ]} None.

(* ===================================================================== *)
(** * Properties *)
(* ===================================================================== *)

(** ** Byte strings *)

(** A read returns, and leaves the state as it was. *)
Lemma os_ReadFile_returns (name : string) (s : State) :
  exists data readErr, os_ReadFile name s = (s, Ret (data, readErr)).
Proof.
  unfold os_ReadFile. destruct (fs s !! name); eauto.
Qed.

Lemma append_cons (x : ascii) (a b : string) :
  String x a ++ b = String x (a ++ b).
Proof. reflexivity. Qed.

Lemma append_nil_l (b : string) : "" ++ b = b.
Proof. reflexivity. Qed.

Lemma append_assoc (a b c : string) : (a ++ b) ++ c = a ++ (b ++ c).
Proof.
  induction a as [|x a IH]; [reflexivity|].
  now rewrite !append_cons, IH.
Qed.

Lemma append_nil_r (a : string) : a ++ "" = a.
Proof.
  induction a as [|x a IH]; [reflexivity|].
  now rewrite append_cons, IH.
Qed.

Lemma length_append (a b : string) :
  String.length (a ++ b) = (String.length a + String.length b)%nat.
Proof.
  induction a as [|x a IH]; [reflexivity|].
  rewrite append_cons. simpl. now rewrite IH.
Qed.

Lemma prefix_nil (s : string) : String.prefix "" s = true.
Proof. now destruct s. Qed.

Lemma prefix_cons (x y : ascii) (p s : string) :
  String.prefix (String x p) (String y s)
  = if ascii_dec x y then String.prefix p s else false.
Proof. reflexivity. Qed.

Lemma prefix_append (p s : string) :
  String.prefix p s = true <-> exists b, s = p ++ b.
Proof.
  revert s. induction p as [|x p IH]; intros s.
  - rewrite prefix_nil. split; [intros _; now exists s | reflexivity].
  - destruct s as [|y s].
    + split; [discriminate | intros [b Hb]; discriminate].
    + rewrite prefix_cons. destruct (ascii_dec x y) as [->|Hne].
      * rewrite IH. split; intros [b Hb]; exists b.
        -- now rewrite append_cons, Hb.
        -- rewrite append_cons in Hb. congruence.
      * split; [discriminate | intros [b Hb]].
        rewrite append_cons in Hb. congruence.
Qed.

Lemma Index_nil (sub : string) :
  strings.Index "" sub = if String.prefix sub "" then 0 else -1.
Proof. reflexivity. Qed.

Lemma Index_cons (x : ascii) (s sub : string) :
  strings.Index (String x s) sub
  = if String.prefix sub (String x s) then 0
    else if strings.Index s sub <? 0 then -1 else strings.Index s sub + 1.
Proof. reflexivity. Qed.

Lemma Index_lower (s sub : string) : -1 <= strings.Index s sub.
Proof.
  induction s as [|x s IH].
  - rewrite Index_nil. destruct (String.prefix sub ""); lia.
  - rewrite Index_cons. destruct (String.prefix sub (String x s)); [lia|].
    destruct (Z.ltb_spec (strings.Index s sub) 0); lia.
Qed.

Lemma Index_found (s sub : string) :
  0 <= strings.Index s sub <-> substring_of sub s.
Proof.
  split.
  - induction s as [|x s IH].
    + rewrite Index_nil. destruct (String.prefix sub "") eqn:Hp; [|lia].
      intros _. apply prefix_append in Hp as [b Hb].
      now exists "", b.
    + rewrite Index_cons.
      destruct (String.prefix sub (String x s)) eqn:Hp.
      * intros _. apply prefix_append in Hp as [b Hb].
        now exists "", b.
      * destruct (Z.ltb_spec (strings.Index s sub) 0) as [Hlt|Hge]; [lia|].
        intros _. destruct (IH Hge) as (a & b & ->).
        now exists (String x a), b.
  - intros (a & b & ->). induction a as [|x a IH].
    + rewrite append_nil_l.
      assert (Hp : String.prefix sub (sub ++ b) = true)
        by (apply prefix_append; now exists b).
      destruct (sub ++ b) as [|y t];
        [rewrite Index_nil | rewrite Index_cons]; rewrite Hp; lia.
    + rewrite append_cons, Index_cons.
      destruct (String.prefix sub (String x (a ++ sub ++ b))); [lia|].
      destruct (Z.ltb_spec (strings.Index (a ++ sub ++ b) sub) 0); lia.
Qed.

(** [strings.Contains] decides occurrence as a substring. *)
Lemma Contains_substring (s sub : string) :
  strings.Contains s sub = true <-> substring_of sub s.
Proof.
  unfold strings.Contains. rewrite Z.leb_le. apply Index_found.
Qed.

Lemma Contains_false (s sub : string) :
  strings.Contains s sub = false <-> ~ substring_of sub s.
Proof.
  rewrite <- Contains_substring.
  destruct (strings.Contains s sub); split; congruence.
Qed.

(** *** A one-byte separator *)

Lemma prefix_single (c : ascii) (s : string) :
  String.prefix (String c "") s
  = match s with
    | EmptyString => false
    | String y _ => if ascii_dec c y then true else false
    end.
Proof.
  destruct s as [|y t]; [reflexivity|].
  rewrite prefix_cons, prefix_nil. reflexivity.
Qed.

Lemma Contains_single_cons (c x : ascii) (s : string) :
  strings.Contains (String x s) (String c "") = false ->
  c <> x /\ strings.Contains s (String c "") = false.
Proof.
  unfold strings.Contains. rewrite Index_cons, prefix_single.
  destruct (ascii_dec c x) as [->|Hne]; [discriminate|].
  destruct (Z.ltb_spec (strings.Index s (String c "")) 0) as [Hlt|Hge].
  - intros _. split; [assumption|]. apply Z.leb_gt. assumption.
  - intros H. apply Z.leb_gt in H. lia.
Qed.

(** The first occurrence of the separator ends the longest prefix without
    it. *)
Lemma Index_first (c : ascii) (pre post : string) :
  strings.Contains pre (String c "") = false ->
  strings.Index (pre ++ String c "" ++ post) (String c "")
  = Z.of_nat (String.length pre).
Proof.
  induction pre as [|x pre IH]; intros Hno.
  - rewrite append_nil_l, append_cons, Index_cons, prefix_single.
    destruct (ascii_dec c c); [reflexivity | congruence].
  - apply Contains_single_cons in Hno as [Hne Hno].
    rewrite append_cons, Index_cons, prefix_single.
    destruct (ascii_dec c x); [congruence|].
    rewrite (IH Hno).
    destruct (Z.ltb_spec (Z.of_nat (String.length pre)) 0); [lia|].
    simpl String.length. lia.
Qed.

Lemma Contains_first (c : ascii) (s : string) :
  strings.Contains s (String c "") = true ->
  exists pre post,
    s = pre ++ String c "" ++ post
    /\ strings.Contains pre (String c "") = false.
Proof.
  induction s as [|x s IH].
  - discriminate.
  - destruct (ascii_dec c x) as [->|Hne].
    + intros _. exists "", s. split; reflexivity.
    + unfold strings.Contains. rewrite Index_cons, prefix_single.
      destruct (ascii_dec c x); [congruence|].
      destruct (Z.ltb_spec (strings.Index s (String c "")) 0) as [Hlt|Hge];
        [discriminate|].
      intros _. destruct IH as (pre & post & -> & Hno).
      { unfold strings.Contains. apply Z.leb_le. assumption. }
      exists (String x pre), post. split; [reflexivity|].
      unfold strings.Contains. rewrite Index_cons, prefix_single.
      destruct (ascii_dec c x); [congruence|].
      unfold strings.Contains in Hno. apply Z.leb_gt in Hno.
      destruct (Z.ltb_spec (strings.Index pre (String c "")) 0); [reflexivity | lia].
Qed.

Lemma take_append (pre rest : string) :
  strings.take (String.length pre) (pre ++ rest) = pre.
Proof.
  unfold strings.take. induction pre as [|x pre IH].
  - rewrite append_nil_l. now destruct rest.
  - rewrite append_cons. simpl. now rewrite IH.
Qed.

(** [parts[0]] of a split at a one-byte separator is what precedes its
    first occurrence. *)
Lemma Split_head (c : ascii) (pre post : string) :
  strings.Contains pre (String c "") = false ->
  exists rest,
    strings.Split (pre ++ String c "" ++ post) (String c "") = pre :: rest.
Proof.
  intros Hno. unfold strings.Split.
  rewrite length_append, append_cons. simpl String.length.
  rewrite Nat.add_succ_r. cbn [strings.genSplit].
  change (String c ("" ++ post)) with (String c "" ++ post).
  rewrite (Index_first c pre post Hno).
  destruct (Z.ltb_spec (Z.of_nat (String.length pre)) 0); [lia|].
  rewrite Nat2Z.id, take_append. eexists. reflexivity.
Qed.

(* ===================================================================== *)
(** ** Tag mutation: [getNewName] *)
(* ===================================================================== *)

(** C3. For every artifact and tag, [getNewName] returns, without error,
    the part of the name before the [":"] separator followed by [":"] and
    the new tag when the name contains the separator (the old tag is
    replaced), and the name followed by [":"] and the new tag otherwise;
    ["app"] and ["app:v1"] with tag ["v2"] both give ["app:v2"]. *)
Theorem getNewName_replaces_tag (artifact : OCIArtifact) (tg : string) :
  (substring_of ":" (Name artifact) ->
   exists repo old,
     Name artifact = repo ++ ":" ++ old
     /\ ~ substring_of ":" repo
     /\ getNewName artifact tg = (repo ++ ":" ++ tg, None))
  /\ (~ substring_of ":" (Name artifact) ->
      getNewName artifact tg = (Name artifact ++ ":" ++ tg, None))
  /\ (forall label params,
        getNewName (mkOCIArtifact label "app" params) "v2" = ("app:v2", None))
  /\ (forall label params,
        getNewName (mkOCIArtifact label "app:v1" params) "v2"
        = ("app:v2", None)).
Proof.
  repeat split.
  - intros Hsep. apply Contains_substring in Hsep.
    destruct (Contains_first _ _ Hsep) as (repo & old & Hname & Hno).
    exists repo, old. split; [assumption|].
    split; [now apply Contains_false|].
    unfold getNewName. rewrite Hsep, Hname.
    destruct (Split_head _ repo old Hno) as [rest ->]. reflexivity.
  - intros Hno. apply Contains_false in Hno.
    unfold getNewName. now rewrite Hno.
Qed.

Lemma getNewName_replaces_tag_witness :
  (exists repo old,
     Name sampleAppV1 = repo ++ ":" ++ old
     /\ ~ substring_of ":" repo
     /\ getNewName sampleAppV1 "v2" = (repo ++ ":" ++ "v2", None))
  /\ getNewName sampleApp "v2" = (Name sampleApp ++ ":" ++ "v2", None).
Proof.
  split.
  - apply (proj1 (getNewName_replaces_tag sampleAppV1 "v2")).
    exists "app", "v1". reflexivity.
  - apply (proj1 (proj2 (getNewName_replaces_tag sampleApp "v2"))).
    apply Contains_false. reflexivity.
Defined.

(* ===================================================================== *)
(** ** Build target naming: [genOCIAttrName] *)
(* ===================================================================== *)

(** C4. [genOCIAttrName] returns a string for every label, platform and
    value of the development-dependencies flag: the attribute path
    [bsf/.#ociImages.<arch>.ociImage_<label>_<suffix>], whose architecture
    segment is [x86_64-linux] for ["linux/amd64"], [aarch64-linux] for
    ["linux/arm64"] and [unknown] for any other platform, and whose suffix,
    for the label ["pkgs"], is [dev-as-dir] when the flag is set and
    [runtime-as-dir] when it is not. *)
Theorem genOCIAttrName_total (fl : Flags) (env plat : string)
    (artifact : OCIArtifact) :
  exists arch suffix,
    genOCIAttrName fl env plat artifact
    = "bsf/.#ociImages." ++ arch ++ ".ociImage_" ++ env ++ "_" ++ suffix
    /\ (plat = "linux/amd64" -> arch = "x86_64-linux")
    /\ (plat = "linux/arm64" -> arch = "aarch64-linux")
    /\ (plat <> "linux/amd64" -> plat <> "linux/arm64" -> arch = "unknown")
    /\ (env = "pkgs" ->
        suffix = if devDeps fl then "dev-as-dir" else "runtime-as-dir").
Proof.
  unfold genOCIAttrName.
  set (arch := if String.eqb plat "linux/amd64" then "x86_64-linux"
               else if String.eqb plat "linux/arm64" then "aarch64-linux"
               else "unknown").
  assert (Harch :
    (plat = "linux/amd64" -> arch = "x86_64-linux")
    /\ (plat = "linux/arm64" -> arch = "aarch64-linux")
    /\ (plat <> "linux/amd64" -> plat <> "linux/arm64" -> arch = "unknown")).
  { subst arch. repeat split.
    - intros ->. reflexivity.
    - intros ->. reflexivity.
    - intros H1 H2. apply String.eqb_neq in H1, H2. now rewrite H1, H2. }
  destruct Harch as (Ha & Hb & Hc).
  exists arch.
  destruct (String.eqb_spec env "pkgs") as [->|Hne].
  - exists (if devDeps fl then "dev-as-dir" else "runtime-as-dir").
    split; [|tauto].
    destruct (devDeps fl); now rewrite !append_assoc.
  - exists (if devDeps fl then "app_with_dev-as-dir" else "app-as-dir").
    split; [|tauto].
    destruct (devDeps fl); now rewrite !append_assoc.
Qed.

Lemma genOCIAttrName_total_witness :
  (exists arch suffix,
     genOCIAttrName noFlags "pkgs" "linux/amd64" sampleApp
     = "bsf/.#ociImages." ++ arch ++ ".ociImage_" ++ "pkgs" ++ "_" ++ suffix
     /\ arch = "x86_64-linux" /\ suffix = "runtime-as-dir")
  /\ (exists arch suffix,
       genOCIAttrName noFlags "svc" "linux/arm64" sampleApp
       = "bsf/.#ociImages." ++ arch ++ ".ociImage_" ++ "svc" ++ "_" ++ suffix
       /\ arch = "aarch64-linux")
  /\ (exists arch suffix,
       genOCIAttrName noFlags "svc" "darwin/arm64" sampleApp
       = "bsf/.#ociImages." ++ arch ++ ".ociImage_" ++ "svc" ++ "_" ++ suffix
       /\ arch = "unknown").
Proof.
  split; [|split].
  - destruct (genOCIAttrName_total noFlags "pkgs" "linux/amd64" sampleApp)
      as (arch & suffix & Hname & Hamd & _ & _ & Hpkgs).
    exists arch, suffix.
    split; [exact Hname|].
    split; [apply Hamd; reflexivity | apply Hpkgs; reflexivity].
  - destruct (genOCIAttrName_total noFlags "svc" "linux/arm64" sampleApp)
      as (arch & suffix & Hname & _ & Harm & _ & _).
    exists arch, suffix.
    split; [exact Hname | apply Harm; reflexivity].
  - destruct (genOCIAttrName_total noFlags "svc" "darwin/arm64" sampleApp)
      as (arch & suffix & Hname & _ & _ & Hother & _).
    exists arch, suffix.
    split; [exact Hname | apply Hother; discriminate].
Defined.

(** C10. The artifact passed to [genOCIAttrName] has no influence on the
    name it returns: any two artifacts give the same result for the same
    label, platform and flags. *)
Theorem genOCIAttrName_ignores_artifact (fl : Flags) (env plat : string)
    (a1 a2 : OCIArtifact) :
  genOCIAttrName fl env plat a1 = genOCIAttrName fl env plat a2.
Proof. reflexivity. Qed.

(* ===================================================================== *)
(** ** Mutation persistence: [ModifyConfig] *)
(* ===================================================================== *)

Section ModifyConfigFacts.

Variable hclEncode : Config -> string * error.

Lemma modifyLoop_no_match (oldName : string) (artifact : OCIArtifact)
    (rest : list OCIArtifact) (i : nat) (arr : list OCIArtifact) :
  (forall ex, In ex rest -> Name ex <> oldName) ->
  modifyLoop oldName artifact rest i arr = (arr, false).
Proof.
  revert i. induction rest as [|ex rest IH]; intros i Hno; [reflexivity|].
  simpl. destruct (String.eqb_spec (Name ex) oldName) as [Heq|Hne].
  - exfalso. apply (Hno ex); [now left | assumption].
  - apply IH. intros ex' Hin. apply Hno. now right.
Qed.

Lemma modifyLoop_updated (oldName : string) (artifact : OCIArtifact)
    (rest : list OCIArtifact) (i : nat) (arr arr' : list OCIArtifact) :
  modifyLoop oldName artifact rest i arr = (arr', true) ->
  exists ex, In ex rest /\ Name ex = oldName.
Proof.
  revert i. induction rest as [|ex rest IH]; intros i; [discriminate|].
  simpl. destruct (String.eqb_spec (Name ex) oldName) as [Heq|Hne].
  - intros _. exists ex. split; [now left | assumption].
  - intros H. destruct (IH _ H) as (ex' & Hin & Hname).
    exists ex'. split; [now right | assumption].
Qed.

Lemma setConfObj_same (s : State) (config : Config) :
  confObj s = Some config ->
  setConfObj s (Some (setOCIArtifact config (OCIArtifact_ config))) = s.
Proof.
  destruct s, config. simpl. intros ->. reflexivity.
Qed.

(** C7. For every configuration and every old name borne by none of its
    artifacts, [ModifyConfig] writes nothing, leaves the configuration in
    memory as it was and returns no error; and whenever [ModifyConfig]
    changes a file, some artifact bore the old name. *)
Theorem ModifyConfig_no_match (oldName : string) (artifact : OCIArtifact)
    (s : State) (config : Config) :
  confObj s = Some config ->
  ((forall ex, In ex (OCIArtifact_ config) -> Name ex <> oldName) ->
   ModifyConfig hclEncode oldName artifact s = (s, Ret None))
  /\ (forall s' r,
        ModifyConfig hclEncode oldName artifact s = (s', r) ->
        fs s' <> fs s ->
        exists ex, In ex (OCIArtifact_ config) /\ Name ex = oldName).
Proof.
  intros Hconf. split.
  - intros Hno. unfold ModifyConfig. rewrite Hconf.
    rewrite (modifyLoop_no_match _ _ _ _ _ Hno).
    now rewrite setConfObj_same.
  - intros s' r. unfold ModifyConfig. rewrite Hconf.
    destruct (modifyLoop oldName artifact (OCIArtifact_ config) 0
                (OCIArtifact_ config)) as [arr [|]] eqn:Hloop.
    + intros _ _. eapply modifyLoop_updated. exact Hloop.
    + intros [= <- _] Hfs. exfalso. apply Hfs. reflexivity.
Qed.

End ModifyConfigFacts.

Lemma ModifyConfig_no_match_witness :
  ModifyConfig namesEncode "app:v9" sampleApp
    (stateOf noFlags ∅ (Some (configOf [svc; web])))
  = (stateOf noFlags ∅ (Some (configOf [svc; web])), Ret None)
  /\ exists ex, In ex [svc; web] /\ Name ex = "web:latest".
Proof.
  split.
  - apply (ModifyConfig_no_match namesEncode "app:v9" sampleApp
             (stateOf noFlags ∅ (Some (configOf [svc; web])))
             (configOf [svc; web]) eq_refl).
    intros ex [<-|[<-|[]]]; discriminate.
  - apply (proj2 (ModifyConfig_no_match namesEncode "web:latest" sampleApp
                    (stateOf noFlags ∅ (Some (configOf [svc; web])))
                    (configOf [svc; web]) eq_refl)
             (stateOf noFlags {[ "bsf.hcl" := "svc:latest" ++ LF ++ "app" ]}
                (Some (configOf [svc; sampleApp])))
             (Ret None)).
    + reflexivity.
    + simpl. intros H.
      apply (f_equal (fun m : gmap string string => m !! "bsf.hcl")) in H.
      rewrite lookup_singleton_eq, lookup_empty in H. discriminate.
Defined.

(* ===================================================================== *)
(** ** Platform and artifact resolution: [ProcessPlatformAndConfig] *)
(* ===================================================================== *)

Section Resolution.

Variable FindPlatform : string -> string * string.
Variable Validate : OCIArtifact -> Config -> option string.

(** The allowlist loop decides [supported]. *)
Lemma platformLoop_supported (p : string) :
  platformLoop p supportedPlatforms = true <-> supported p.
Proof.
  unfold supported, supportedPlatforms. cbn [platformLoop].
  rewrite <- !Contains_substring.
  destruct (strings.Contains p "linux/amd64"),
           (strings.Contains p "linux/arm64"); intuition congruence.
Qed.

(** The function after its first statement: [plat] is the resolved
    platform. *)
Lemma ProcessPlatformAndConfig_resolved (fl : Flags) (conf : Config)
    (plat envName : string) :
  ProcessPlatformAndConfig FindPlatform Validate fl conf plat envName
  = if negb (platformLoop (resolvedPlatform FindPlatform plat) supportedPlatforms) then
      (zeroOCIArtifact, "",
       Some ("Platform " ++ platform fl
             ++ " is not supported. Supported platforms are linux/amd64, linux/arm64"))
    else
      match artifactLoop Validate conf envName (OCIArtifact_ conf) [] with
      | inl msg => (zeroOCIArtifact, "", Some msg)
      | inr (envNames, found, artifact) =>
          if negb found then
            (zeroOCIArtifact, "",
             Some ("error: No such environment found. Valid oci environment that can be built are: "
                   ++ strings.Join envNames ", "))
          else (artifact, resolvedPlatform FindPlatform plat, None)
      end.
Proof.
  unfold ProcessPlatformAndConfig, resolvedPlatform,
    hostPlatform.
  destruct (String.eqb_spec plat "") as [->|Hne]; [|reflexivity].
  destruct (FindPlatform "") as [tos tarch]. reflexivity.
Qed.

Lemma ProcessPlatformAndConfig_unsupported (fl : Flags) (conf : Config)
    (plat envName : string) :
  ~ supported (resolvedPlatform FindPlatform plat) ->
  ProcessPlatformAndConfig FindPlatform Validate fl conf plat envName
  = (zeroOCIArtifact, "",
     Some ("Platform " ++ platform fl
           ++ " is not supported. Supported platforms are linux/amd64, linux/arm64")).
Proof.
  intros Hno. rewrite ProcessPlatformAndConfig_resolved.
  destruct (platformLoop (resolvedPlatform FindPlatform plat) supportedPlatforms) eqn:E;
    [|reflexivity].
  apply platformLoop_supported in E. contradiction.
Qed.

Lemma ProcessPlatformAndConfig_supported (fl : Flags) (conf : Config)
    (plat envName : string) :
  supported (resolvedPlatform FindPlatform plat) ->
  ProcessPlatformAndConfig FindPlatform Validate fl conf plat envName
  = match artifactLoop Validate conf envName (OCIArtifact_ conf) [] with
    | inl msg => (zeroOCIArtifact, "", Some msg)
    | inr (envNames, found, artifact) =>
        if negb found then
          (zeroOCIArtifact, "",
           Some ("error: No such environment found. Valid oci environment that can be built are: "
                 ++ strings.Join envNames ", "))
        else (artifact, resolvedPlatform FindPlatform plat, None)
    end.
Proof.
  intros Hyes. rewrite ProcessPlatformAndConfig_resolved.
  apply platformLoop_supported in Hyes. now rewrite Hyes.
Qed.

(** *** The artifact loop *)

(** Valid artifacts with another label are passed over, their labels
    gathered in order. *)
Lemma artifactLoop_skip (conf : Config) (envName : string)
    (pre rest : list OCIArtifact) (envNames : list string) :
  (forall x, In x pre -> Validate x conf = None) ->
  (forall x, In x pre -> Artifact x <> envName) ->
  artifactLoop Validate conf envName (pre ++ rest) envNames
  = artifactLoop Validate conf envName rest (envNames ++ map Artifact pre).
Proof.
  revert envNames. induction pre as [|x pre IH]; intros envNames Hval Hlab.
  - simpl. now rewrite app_nil_r.
  - simpl. rewrite (Hval x (or_introl eq_refl)).
    destruct (String.eqb_spec (Artifact x) envName) as [Heq|_].
    + exfalso. now apply (Hlab x (or_introl eq_refl)).
    + rewrite IH.
      * now rewrite <- app_assoc.
      * intros y Hy. apply Hval. now right.
      * intros y Hy. apply Hlab. now right.
Qed.

(** An invalid artifact before any label match stops the loop at the
    earliest invalid artifact. *)
Lemma artifactLoop_first_invalid (conf : Config) (envName : string)
    (l1 : list OCIArtifact) (b : OCIArtifact) (l2 : list OCIArtifact)
    (m : string) (envNames : list string) :
  (forall x, In x l1 -> Artifact x <> envName) ->
  Validate b conf = Some m ->
  exists a msg,
    In a (l1 ++ [b]) /\ Validate a conf = Some msg
    /\ artifactLoop Validate conf envName (l1 ++ b :: l2) envNames
       = inl ("Config for export block " ++ Name a ++ " is invalid" ++ LF
              ++ " Error: " ++ msg)
    /\ ((forall x, In x l1 -> Validate x conf = None) -> a = b /\ msg = m).
Proof.
  revert envNames. induction l1 as [|x l1 IH]; intros envNames Hlab Hb.
  - exists b, m. simpl. rewrite Hb. auto.
  - simpl. destruct (Validate x conf) as [e|] eqn:Hx.
    + exists x, e. split; [now left|]. split; [assumption|].
      split; [reflexivity|].
      intros Hall. specialize (Hall x (or_introl eq_refl)). congruence.
    + destruct (String.eqb_spec (Artifact x) envName) as [Heq|_].
      { exfalso. now apply (Hlab x (or_introl eq_refl)). }
      destruct (IH (envNames ++ [Artifact x])%list) as (a & msg & Hin & Ha & Hloop & Hfirst);
        [intros y Hy; apply Hlab; now right | assumption |].
      exists a, msg. split; [now right|]. split; [assumption|].
      split; [assumption|].
      intros Hall. apply Hfirst. intros y Hy. apply Hall. now right.
Qed.

(** When every artifact is valid and none bears the label, the loop ends
    with every label gathered, in document order. *)
Lemma artifactLoop_none (conf : Config) (envName : string)
    (ecs : list OCIArtifact) (envNames : list string) :
  (forall x, In x ecs -> Validate x conf = None) ->
  (forall x, In x ecs -> Artifact x <> envName) ->
  artifactLoop Validate conf envName ecs envNames
  = inr ((envNames ++ map Artifact ecs)%list, false, zeroOCIArtifact).
Proof.
  intros Hval Hlab.
  rewrite <- (app_nil_r ecs) at 1.
  now rewrite (artifactLoop_skip conf envName ecs [] envNames Hval Hlab).
Qed.

(** The loop leaves at the first artifact bearing the label when it and
    all artifacts before it are valid; what follows is not looked at. *)
Lemma artifactLoop_match (conf : Config) (envName : string)
    (pre : list OCIArtifact) (a : OCIArtifact) (rest : list OCIArtifact)
    (envNames : list string) :
  (forall x, In x pre -> Artifact x <> envName) ->
  Artifact a = envName ->
  (forall x, In x (pre ++ [a]) -> Validate x conf = None) ->
  artifactLoop Validate conf envName (pre ++ a :: rest) envNames
  = inr ((envNames ++ map Artifact pre)%list, true, a).
Proof.
  intros Hlab Ha Hval.
  rewrite artifactLoop_skip;
    [|intros x Hx; apply Hval, in_or_app; now left | assumption].
  simpl. rewrite (Hval a); [|apply in_or_app; right; now left].
  rewrite Ha, String.eqb_refl. reflexivity.
Qed.

Lemma artifactLoop_invalid_before_match (conf : Config) (envName : string)
    (pre : list OCIArtifact) (a : OCIArtifact) (rest : list OCIArtifact)
    (envNames : list string) :
  (forall x, In x pre -> Artifact x <> envName) ->
  (exists x, In x (pre ++ [a]) /\ Validate x conf <> None) ->
  exists msg, artifactLoop Validate conf envName (pre ++ a :: rest) envNames = inl msg.
Proof.
  revert envNames. induction pre as [|y pre IH]; intros envNames Hlab Hbad.
  - destruct Hbad as (x & [->|[]] & Hx). simpl.
    destruct (Validate x conf); [eexists; reflexivity | congruence].
  - simpl. destruct (Validate y conf) as [e|] eqn:Hy;
      [eexists; reflexivity|].
    destruct (String.eqb_spec (Artifact y) envName) as [Heq|_].
    { exfalso. now apply (Hlab y (or_introl eq_refl)). }
    apply IH.
    + intros x Hx. apply Hlab. now right.
    + destruct Hbad as (x & [->|Hin] & Hx); [congruence|].
      exists x. split; assumption.
Qed.

(** Every error that leaves the loop names an invalid artifact. *)
Lemma artifactLoop_error (conf : Config) (envName : string)
    (ecs : list OCIArtifact) (envNames : list string) (msg : string) :
  artifactLoop Validate conf envName ecs envNames = inl msg ->
  exists a e,
    In a ecs /\ Validate a conf = Some e
    /\ msg = "Config for export block " ++ Name a ++ " is invalid" ++ LF
             ++ " Error: " ++ e.
Proof.
  revert envNames. induction ecs as [|x ecs IH]; intros envNames;
    [discriminate|].
  simpl. destruct (Validate x conf) as [e|] eqn:Hx.
  - intros [= <-]. exists x, e. split; [now left|]. split; [assumption|reflexivity].
  - destruct (String.eqb (Artifact x) envName); [discriminate|].
    intros H. destruct (IH _ H) as (a & e & Hin & Ha & Hmsg).
    exists a, e. split; [now right|]. split; assumption.
Qed.

(** C1. When the platform is accepted and an artifact that no matching
    label precedes fails its validation, [ProcessPlatformAndConfig] fails
    with the name and the validation message of the earliest failing
    artifact, which is that artifact itself when all artifacts before it
    are valid; whatever follows it, valid and matching or not, is never
    reached. *)
Theorem eager_validation (fl : Flags) (conf : Config) (plat envName : string)
    (l1 : list OCIArtifact) (b : OCIArtifact) (l2 : list OCIArtifact)
    (m : string) :
  supported (resolvedPlatform FindPlatform plat) ->
  OCIArtifact_ conf = (l1 ++ b :: l2)%list ->
  (forall x, In x l1 -> Artifact x <> envName) ->
  Validate b conf = Some m ->
  exists a msg,
    In a (l1 ++ [b]) /\ Validate a conf = Some msg
    /\ ProcessPlatformAndConfig FindPlatform Validate fl conf plat envName
       = (zeroOCIArtifact, "",
          Some ("Config for export block " ++ Name a ++ " is invalid" ++ LF
                ++ " Error: " ++ msg))
    /\ ((forall x, In x l1 -> Validate x conf = None) -> a = b /\ msg = m).
Proof.
  intros Hplat Harts Hlab Hb.
  destruct (artifactLoop_first_invalid conf envName l1 b l2 m [] Hlab Hb)
    as (a & msg & Hin & Ha & Hloop & Hfirst).
  exists a, msg. split; [assumption|]. split; [assumption|].
  split; [|assumption].
  rewrite (ProcessPlatformAndConfig_supported _ _ _ _ Hplat), Harts, Hloop.
  reflexivity.
Qed.

(** C8. When the platform is accepted, every artifact passes validation
    and none bears the requested label, [ProcessPlatformAndConfig] fails
    with an error that lists the labels of all artifacts of the
    configuration, in document order, separated by [", "]. *)
Theorem unknown_label_lists_all (fl : Flags) (conf : Config)
    (plat envName : string) :
  supported (resolvedPlatform FindPlatform plat) ->
  (forall x, In x (OCIArtifact_ conf) -> Validate x conf = None) ->
  (forall x, In x (OCIArtifact_ conf) -> Artifact x <> envName) ->
  ProcessPlatformAndConfig FindPlatform Validate fl conf plat envName
  = (zeroOCIArtifact, "",
     Some ("error: No such environment found. Valid oci environment that can be built are: "
           ++ strings.Join (map Artifact (OCIArtifact_ conf)) ", ")).
Proof.
  intros Hplat Hval Hlab.
  rewrite (ProcessPlatformAndConfig_supported _ _ _ _ Hplat).
  rewrite (artifactLoop_none _ _ _ _ Hval Hlab). reflexivity.
Qed.

(** C2, amended. When the platform is accepted and [a] is the first
    artifact bearing the requested label, [ProcessPlatformAndConfig]
    returns [a] if [a] and all artifacts before it pass validation, and
    fails if one of them does not; the artifacts after [a] are not
    validated and do not influence the result. *)
Theorem selection_validates_up_to_match (fl : Flags) (conf : Config)
    (plat envName : string)
    (pre : list OCIArtifact) (a : OCIArtifact) (rest : list OCIArtifact) :
  supported (resolvedPlatform FindPlatform plat) ->
  OCIArtifact_ conf = (pre ++ a :: rest)%list ->
  (forall x, In x pre -> Artifact x <> envName) ->
  Artifact a = envName ->
  ((forall x, In x (pre ++ [a]) -> Validate x conf = None) ->
   ProcessPlatformAndConfig FindPlatform Validate fl conf plat envName
   = (a, resolvedPlatform FindPlatform plat, None))
  /\ ((exists x, In x (pre ++ [a]) /\ Validate x conf <> None) ->
      exists msg,
        ProcessPlatformAndConfig FindPlatform Validate fl conf plat envName
        = (zeroOCIArtifact, "", Some msg)).
Proof.
  intros Hplat Harts Hlab Ha.
  rewrite (ProcessPlatformAndConfig_supported _ _ _ _ Hplat), Harts.
  split.
  - intros Hval. now rewrite (artifactLoop_match _ _ _ _ _ _ Hlab Ha Hval).
  - intros Hbad.
    destruct (artifactLoop_invalid_before_match conf envName pre a rest []
                Hlab Hbad) as [msg ->].
    now exists msg.
Qed.

(** *** The platform *)

Lemma resolvedPlatform_given (plat : string) :
  plat <> "" -> resolvedPlatform FindPlatform plat = plat.
Proof.
  intros Hne. unfold resolvedPlatform.
  apply String.eqb_neq in Hne. now rewrite Hne.
Qed.

Lemma resolvedPlatform_empty : resolvedPlatform FindPlatform "" = hostPlatform FindPlatform.
Proof. reflexivity. Qed.

(** No error of the artifact loop, and no unknown-label error, reads like
    the unsupported-platform error. *)
Lemma selection_error_not_platform (fl : Flags) (conf : Config)
    (plat envName : string) :
  supported (resolvedPlatform FindPlatform plat) ->
  snd (ProcessPlatformAndConfig FindPlatform Validate fl conf plat envName)
  <> Some ("Platform " ++ platform fl
           ++ " is not supported. Supported platforms are linux/amd64, linux/arm64").
Proof.
  intros Hplat. rewrite (ProcessPlatformAndConfig_supported _ _ _ _ Hplat).
  destruct (artifactLoop Validate conf envName (OCIArtifact_ conf) [])
    as [msg|[[envNames found] artifact]] eqn:Hloop.
  - destruct (artifactLoop_error _ _ _ _ _ Hloop) as (a & e & _ & _ & ->).
    simpl. rewrite !append_cons. discriminate.
  - destruct found; simpl; [discriminate|].
    rewrite !append_cons. discriminate.
Qed.

(** Without a platform string, the same check is made on the platform of
    the host. *)
Lemma platform_validation_host (fl : Flags) (conf : Config) (envName : string) :
  ~ supported (hostPlatform FindPlatform) ->
  ProcessPlatformAndConfig FindPlatform Validate fl conf "" envName
  = (zeroOCIArtifact, "",
     Some ("Platform " ++ platform fl
           ++ " is not supported. Supported platforms are linux/amd64, linux/arm64")).
Proof.
  intros Hno. now apply ProcessPlatformAndConfig_unsupported.
Qed.

(** C5. For a platform string that is given (not empty),
    [ProcessPlatformAndConfig] passes the platform check exactly when the
    string contains ["linux/amd64"] or ["linux/arm64"] as a substring, equal
    to it or not; when it contains neither, the call fails and the error
    message ends with the list of exactly these two platforms.  When no
    platform string is given, the check and the error are the same for the
    platform of the host. *)
Theorem platform_validation (fl : Flags) (conf : Config)
    (plat envName : string) :
  (plat <> "" ->
   ((substring_of "linux/amd64" plat \/ substring_of "linux/arm64" plat)
    <-> snd (ProcessPlatformAndConfig FindPlatform Validate fl conf plat envName)
        <> Some ("Platform " ++ platform fl
                 ++ " is not supported. Supported platforms are linux/amd64, linux/arm64"))
   /\ (~ substring_of "linux/amd64" plat ->
       ~ substring_of "linux/arm64" plat ->
       ProcessPlatformAndConfig FindPlatform Validate fl conf plat envName
       = (zeroOCIArtifact, "",
          Some ("Platform " ++ platform fl
                ++ " is not supported. Supported platforms are linux/amd64, linux/arm64"))))
  /\ (plat = "" ->
      ~ substring_of "linux/amd64" (hostPlatform FindPlatform) ->
      ~ substring_of "linux/arm64" (hostPlatform FindPlatform) ->
      ProcessPlatformAndConfig FindPlatform Validate fl conf plat envName
      = (zeroOCIArtifact, "",
         Some ("Platform " ++ platform fl
               ++ " is not supported. Supported platforms are linux/amd64, linux/arm64"))).
Proof.
  split.
  - intros Hne.
    assert (Hres := resolvedPlatform_given plat Hne).
    split.
    + split.
      * intros Hyes. apply selection_error_not_platform.
        rewrite Hres. exact Hyes.
      * intros Herr.
        destruct (platformLoop plat supportedPlatforms) eqn:E.
        -- now apply platformLoop_supported in E.
        -- exfalso. apply Herr.
           rewrite ProcessPlatformAndConfig_unsupported; [reflexivity|].
           rewrite Hres. intros Hyes. apply platformLoop_supported in Hyes.
           congruence.
    + intros Hamd Harm. apply ProcessPlatformAndConfig_unsupported.
      rewrite Hres. intros [H|H]; contradiction.
  - intros -> Hamd Harm. apply platform_validation_host.
    intros [H|H]; contradiction.
Qed.

(** C9, amended. On success [ProcessPlatformAndConfig] returns the platform
    string it was given, unchanged, when that string is not empty, and the
    host platform [os/arch] built from [FindPlatform] when it is empty; in
    both cases the returned string contains a supported platform. *)
Theorem returned_platform (fl : Flags) (conf : Config) (plat envName : string)
    (artifact : OCIArtifact) (p : string) :
  ProcessPlatformAndConfig FindPlatform Validate fl conf plat envName = (artifact, p, None) ->
  supported p
  /\ (plat <> "" -> p = plat)
  /\ (plat = "" ->
      p = fst (FindPlatform "") ++ "/" ++ snd (FindPlatform "")).
Proof.
  rewrite ProcessPlatformAndConfig_resolved.
  destruct (platformLoop (resolvedPlatform FindPlatform plat) supportedPlatforms) eqn:E;
    [|discriminate].
  simpl negb. cbv iota.
  destruct (artifactLoop Validate conf envName (OCIArtifact_ conf) [])
    as [msg|[[envNames found] art]]; [discriminate|].
  destruct found; [|discriminate].
  intros [= _ <-].
  split; [now apply platformLoop_supported|].
  split.
  - apply resolvedPlatform_given.
  - intros ->. rewrite resolvedPlatform_empty. unfold hostPlatform.
    now destruct (FindPlatform "").
Qed.

End Resolution.

(* ===================================================================== *)
(** ** The command: the Dockerfile-patch branch *)
(* ===================================================================== *)

Section Command.

Variable FindPlatform : string -> string * string.
Variable Validate : OCIArtifact -> Config -> option string.
Variable ModifyDockerfile : string -> bool -> string -> list string * error.
Variable hclDecode : string -> Config + (string * string).
Variable hclEncode : Config -> string * error.
Variable Errorf0 : string -> string.

Lemma bind_Ret {A B : Type} (c : M A) (k : A -> M B) (s s' : State) (a : A) :
  c s = (s', Ret a) -> bind c k s = k a s'.
Proof. intros H. unfold bind. now rewrite H. Qed.

Lemma bind_Exited {A B : Type} (c : M A) (k : A -> M B) (s s' : State)
    (code : Z) :
  c s = (s', Exited code) -> bind c k s = (s', Exited code).
Proof. intros H. unfold bind. now rewrite H. Qed.

(** One statement that returns: the computation goes on with its value. *)
Ltac run_step := erewrite bind_Ret by reflexivity; cbv beta iota.

(** [ReadHclFile] returns and changes nothing. *)
Lemma ReadHclFile_returns (fileName : string) (s : State) :
  exists r, ReadHclFile hclDecode Errorf0 fileName s = (s, Ret r).
Proof.
  unfold ReadHclFile, ReadConfig, bind, os_ReadFile.
  destruct (fs s !! fileName) as [data|]; [|eexists; reflexivity].
  destruct (hclDecode data) as [conf|[dstErr err]]; eexists; reflexivity.
Qed.

(** The Dockerfile is never the configuration document. *)
Lemma dockerfilePath_not_config (path : string) :
  (if negb (String.eqb path "") then path ++ "/Dockerfile" else "./Dockerfile")
  <> "bsf.hcl".
Proof.
  destruct (String.eqb path ""); simpl; [discriminate|].
  intros H. apply (f_equal String.length) in H.
  rewrite length_append in H. simpl in H. lia.
Qed.

(** [modifyDockerfileWithTag] returns; it touches at most the Dockerfile,
    prints nothing and leaves the flags and the configuration alone. *)
Lemma modifyDockerfileWithTag_frame (path tg : string) (dev : bool)
    (s : State) :
  exists s' err,
    modifyDockerfileWithTag ModifyDockerfile path tg dev s = (s', Ret err)
    /\ flags s' = flags s /\ confObj s' = confObj s
    /\ stdout s' = stdout s
    /\ fs s' !! "bsf.hcl" = fs s !! "bsf.hcl".
Proof.
  unfold modifyDockerfileWithTag.
  assert (Hpath := dockerfilePath_not_config path).
  set (dockerfilePath :=
         if negb (String.eqb path "") then path ++ "/Dockerfile"
         else "./Dockerfile") in *.
  unfold bind, os_ReadFile.
  destruct (fs s !! dockerfilePath) as [file|];
    [|eexists _, _; split; [reflexivity | auto]].
  destruct (ModifyDockerfile file dev tg) as [resLines [e|]];
    [eexists _, _; split; [reflexivity | auto]|].
  unfold os_WriteFile, ret.
  destruct (decide (dockerfilePath ∈ denied s));
    [eexists _, _; split; [reflexivity | auto]|].
  eexists _, _. split; [reflexivity|]. simpl.
  repeat split. now rewrite lookup_insert_ne.
Qed.

(** With [--df-swap] the tag branch is not taken. *)
Lemma mutateName_dfSwap (artifact : OCIArtifact) (s : State) :
  dfSwap (flags s) = true ->
  mutateName hclEncode artifact s = (s, Ret artifact).
Proof.
  intros Hdf. unfold mutateName, bind, getFlags.
  now rewrite Hdf, andb_false_r.
Qed.

(** With [--df-swap] the patch branch always ends the process with
    status 1. *)
Lemma patchDockerfile_dfSwap (s : State) :
  dfSwap (flags s) = true ->
  exists s',
    patchDockerfile ModifyDockerfile s = (s', Exited 1)
    /\ flags s' = flags s /\ confObj s' = confObj s
    /\ fs s' !! "bsf.hcl" = fs s !! "bsf.hcl"
    /\ (tag (flags s) = "" ->
        s' = setStdout s
               (stdout s
                ++ [Render HintStyle ["hint:"; "use --tag flag to define a tag"]])).
Proof.
  intros Hdf. unfold patchDockerfile, bind at 1, getFlags.
  rewrite Hdf.
  destruct (String.eqb_spec (tag (flags s)) "") as [Htag|Htag]; simpl negb;
    cbv iota.
  - eexists. split; [reflexivity|]. simpl. auto.
  - destruct (modifyDockerfileWithTag_frame (path (flags s)) (tag (flags s))
                (devDeps (flags s)) s)
      as (s1 & err & Hrun & Hfl & Hconf & Hout & Hfs).
    unfold bind. rewrite Hrun.
    destruct err as [msg|]; simpl.
    + eexists. split; [reflexivity|]. simpl. tauto.
    + eexists. split; [reflexivity|]. simpl. tauto.
Qed.

Lemma mutateOrPatch_dfSwap (artifact : OCIArtifact) (s : State) :
  dfSwap (flags s) = true ->
  exists s',
    mutateOrPatch ModifyDockerfile hclEncode artifact s = (s', Exited 1)
    /\ confObj s' = confObj s
    /\ fs s' !! "bsf.hcl" = fs s !! "bsf.hcl"
    /\ (tag (flags s) = "" ->
        s' = setStdout s
               (stdout s
                ++ [Render HintStyle ["hint:"; "use --tag flag to define a tag"]])).
Proof.
  intros Hdf.
  destruct (patchDockerfile_dfSwap s Hdf)
    as (s' & Hrun & _ & Hconf & Hfs & Hhint).
  exists s'. split; [|auto].
  unfold mutateOrPatch, bind.
  now rewrite (mutateName_dfSwap artifact s Hdf), Hrun.
Qed.

(** C6, amended. When [--df-swap] is set, [Run] always ends the process
    with exit status 1, whatever the build states after the patch branch
    would do (they are never entered); the configuration document and the
    configuration in memory are not modified, so the tag mutation is not
    applied; and without a tag no file is modified and exactly one line
    is printed before the exit.  That line is the hint
    [use --tag flag to define a tag] when a label was given, [bsf.hcl]
    was read and decoded and the platform and the artifact were resolved;
    a run that stops earlier prints its own line instead: the hint that a
    label is missing, or the error of the step that failed.  The patch
    step itself, entered with [--df-swap] and without a tag, prints the
    hint [use --tag flag to define a tag], changes nothing else and exits
    with status 1. *)
Theorem df_swap_terminal (args : list string) (artifact : OCIArtifact)
    (s : State) :
  dfSwap (flags s) = true ->
  (exists s',
     (forall buildStates, Run FindPlatform Validate ModifyDockerfile hclDecode hclEncode
         Errorf0 buildStates args s = (s', Exited 1))
     /\ fs s' !! "bsf.hcl" = fs s !! "bsf.hcl"
     /\ (tag (flags s) = "" -> fs s' = fs s)
     /\ (confObj s' = confObj s
         \/ exists conf,
              ReadHclFile hclDecode Errorf0 "bsf.hcl" s = (s, Ret (inl conf))
              /\ confObj s' = Some conf)
     /\ (tag (flags s) = "" ->
         exists line,
           stdout s' = (stdout s ++ [line])%list
           /\ (args = [] ->
               line = Render HintStyle
                        ["hint:";
                         "run `bsf oci <environment name>` to build an OCI image"])
           /\ (forall arg0 rest err,
                 args = arg0 :: rest ->
                 ReadHclFile hclDecode Errorf0 "bsf.hcl" s = (s, Ret (inr err)) ->
                 line = Render ErrorStyle ["error: "; err])
           /\ (forall arg0 rest conf a p err,
                 args = arg0 :: rest ->
                 ReadHclFile hclDecode Errorf0 "bsf.hcl" s = (s, Ret (inl conf)) ->
                 ProcessPlatformAndConfig FindPlatform Validate (flags s) conf
                   (platform (flags s)) arg0 = (a, p, Some err) ->
                 line = Render ErrorStyle ["error: "; err])
           /\ (forall arg0 rest conf a p,
                 args = arg0 :: rest ->
                 ReadHclFile hclDecode Errorf0 "bsf.hcl" s = (s, Ret (inl conf)) ->
                 ProcessPlatformAndConfig FindPlatform Validate (flags s) conf
                   (platform (flags s)) arg0 = (a, p, None) ->
                 line = Render HintStyle
                          ["hint:"; "use --tag flag to define a tag"])))
  /\ (exists s',
        mutateOrPatch ModifyDockerfile hclEncode artifact s = (s', Exited 1)
        /\ confObj s' = confObj s
        /\ fs s' !! "bsf.hcl" = fs s !! "bsf.hcl"
        /\ (tag (flags s) = "" ->
            s' = setStdout s
                   (stdout s
                    ++ [Render HintStyle
                          ["hint:"; "use --tag flag to define a tag"]]))).
Proof.
  intros Hdf. split; [|now apply mutateOrPatch_dfSwap].
  unfold Run. destruct args as [|arg0 args'].
  { eexists. split; [intros; reflexivity|].
    split; [reflexivity|]. split; [reflexivity|]. split; [now left|].
    intros _. eexists. split; [reflexivity|].
    split; [reflexivity|]. split; [|split]; intros; discriminate. }
  destruct (ReadHclFile_returns "bsf.hcl" s) as [r Hread].
  destruct r as [conf|err].
  2:{ exists (setStdout s (stdout s ++ [Render ErrorStyle ["error: "; err]])).
      split.
      - intros. rewrite (bind_Ret _ _ _ _ _ Hread). reflexivity.
      - split; [reflexivity|]. split; [reflexivity|]. split; [now left|].
        intros _. exists (Render ErrorStyle ["error: "; err]).
        split; [reflexivity|]. split; [discriminate|].
        split; [|split]; intros; congruence. }
  set (s1 := setConfObj s (Some conf)).
  destruct (ProcessPlatformAndConfig FindPlatform Validate (flags s) conf
              (platform (flags s)) arg0) as [[art p] err] eqn:Hsel.
  destruct err as [msg|].
  { exists (setStdout s1 (stdout s1 ++ [Render ErrorStyle ["error: "; msg]])).
    split.
    - intros. rewrite (bind_Ret _ _ _ _ _ Hread). cbv beta iota.
      do 2 run_step.
      change (flags (setConfObj s (Some conf))) with (flags s).
      rewrite Hsel. reflexivity.
    - split; [reflexivity|]. split; [reflexivity|].
      split; [right; exists conf; split; [exact Hread | reflexivity]|].
      intros _. exists (Render ErrorStyle ["error: "; msg]).
      split; [reflexivity|]. split; [discriminate|].
      split; [|split]; intros; congruence. }
  set (s2 := setFlags s1 (setPlatform (flags s) p)).
  destruct (mutateOrPatch_dfSwap art s2 Hdf)
    as (s' & Hrun & Hconf & Hfs & Hhint).
  exists s'. split; [|split; [|split; [|split]]].
  - intros buildStates. rewrite (bind_Ret _ _ _ _ _ Hread). cbv beta iota.
    do 2 run_step.
    change (flags (setConfObj s (Some conf))) with (flags s).
    rewrite Hsel. do 2 run_step.
    now rewrite (bind_Exited _ _ _ _ _ Hrun).
  - exact Hfs.
  - intros Htag. now rewrite (Hhint Htag).
  - right. exists conf. split; [exact Hread | exact Hconf].
  - intros Htag.
    exists (Render HintStyle ["hint:"; "use --tag flag to define a tag"]).
    rewrite (Hhint Htag).
    split; [reflexivity|]. split; [discriminate|].
    split; [|split]; intros; congruence.
Qed.

End Command.

(* ===================================================================== *)
(** ** The properties at sample inputs *)
(* ===================================================================== *)

Example Split_colons : strings.Split "a:b:c" ":" = ["a"; "b"; "c"].
Proof. reflexivity. Qed.

Example Split_no_separator : strings.Split "app" ":" = ["app"].
Proof. reflexivity. Qed.

Example Join_labels : strings.Join ["svc"; "web"; "db"] ", " = "svc, web, db".
Proof. reflexivity. Qed.

(** A name with a registry port: everything after the first [":"] goes. *)
Example getNewName_registry_port :
  getNewName (mkOCIArtifact "svc" "localhost:5000/app:v1" []) "v2"
  = ("localhost:v2", None).
Proof. reflexivity. Qed.

Example genOCIAttrName_pkgs_runtime :
  genOCIAttrName noFlags "pkgs" "linux/amd64" svc
  = "bsf/.#ociImages.x86_64-linux.ociImage_pkgs_runtime-as-dir".
Proof. reflexivity. Qed.

(** With a tag and without [--df-swap] the artifact is renamed, the
    document rewritten, and the build states entered. *)
Example Run_with_tag :
  Run amd64Host nameRequired keepLines nameDecode namesEncode plainFormat
    noBuild ["svc"] (stateOf tagFlags {[ "bsf.hcl" := "svc:latest" ]} None)
  = (stateOf tagFlags {[ "bsf.hcl" := "svc:v2" ]}
       (Some (configOf [mkOCIArtifact "svc" "svc:v2" []])),
     Ret tt).
Proof. reflexivity. Qed.

(** With [--df-swap] and without a tag the hint is all that happens. *)
Example Run_df_swap_without_tag :
  Run amd64Host nameRequired keepLines nameDecode namesEncode plainFormat
    noBuild ["svc"] (stateOf dfSwapFlags {[ "bsf.hcl" := "svc:latest" ]} None)
  = (mkState dfSwapFlags {[ "bsf.hcl" := "svc:latest" ]} ∅
       [(HintStyle, "hint: use --tag flag to define a tag")]
       (Some (configOf [svc])),
     Exited 1).
Proof. reflexivity. Qed.

(** An unknown label: the error lists the labels. *)
Example Run_unknown_label :
  Run amd64Host nameRequired keepLines nameDecode namesEncode plainFormat
    noBuild ["db"] (stateOf dfSwapFlags {[ "bsf.hcl" := "svc:latest" ]} None)
  = (mkState dfSwapFlags {[ "bsf.hcl" := "svc:latest" ]} ∅
       [(ErrorStyle,
         "error:  error: No such environment found. Valid oci environment that can be built are: svc")]
       (Some (configOf [svc])),
     Exited 1).
Proof. reflexivity. Qed.

Lemma supported_amd64 : supported (resolvedPlatform amd64Host "linux/amd64").
Proof. left. exists "", "". reflexivity. Qed.

Lemma eager_validation_witness :
  exists a msg,
    In a ([web] ++ [unnamed]) /\ nameRequired a (configOf [web; unnamed; svc]) = Some msg
    /\ ProcessPlatformAndConfig amd64Host nameRequired noFlags
         (configOf [web; unnamed; svc]) "linux/amd64" "svc"
       = (zeroOCIArtifact, "",
          Some ("Config for export block " ++ Name a ++ " is invalid" ++ LF
                ++ " Error: " ++ msg))
    /\ ((forall x, In x [web] ->
          nameRequired x (configOf [web; unnamed; svc]) = None) ->
        a = unnamed /\ msg = "name is required").
Proof.
  apply (eager_validation amd64Host nameRequired noFlags
           (configOf [web; unnamed; svc]) "linux/amd64" "svc"
           [web] unnamed [svc] "name is required").
  - exact supported_amd64.
  - reflexivity.
  - intros x [<-|[]]. discriminate.
  - reflexivity.
Defined.

Lemma unknown_label_lists_all_witness :
  ProcessPlatformAndConfig amd64Host nameRequired noFlags
    (configOf [svc; web]) "linux/amd64" "db"
  = (zeroOCIArtifact, "",
     Some ("error: No such environment found. Valid oci environment that can be built are: "
           ++ strings.Join (map Artifact (OCIArtifact_ (configOf [svc; web]))) ", ")).
Proof.
  apply (unknown_label_lists_all amd64Host nameRequired noFlags
           (configOf [svc; web]) "linux/amd64" "db").
  - exact supported_amd64.
  - intros x [<-|[<-|[]]]; reflexivity.
  - intros x [<-|[<-|[]]]; discriminate.
Defined.

(** C2 as stated fails: [svc] bears the requested label and is valid, the
    artifact after it has no name and fails its validation, and [svc] is
    returned all the same. *)
Lemma later_invalid_artifact_not_checked :
  ProcessPlatformAndConfig amd64Host nameRequired noFlags
    (configOf [svc; unnamed]) "linux/amd64" "svc"
  = (svc, "linux/amd64", None)
  /\ In unnamed (OCIArtifact_ (configOf [svc; unnamed]))
  /\ nameRequired unnamed (configOf [svc; unnamed]) = Some "name is required".
Proof.
  split; [reflexivity|]. split; [right; now left | reflexivity].
Qed.

Lemma selection_validates_up_to_match_witness :
  ProcessPlatformAndConfig amd64Host nameRequired noFlags
    (configOf [svc; unnamed]) "linux/amd64" "svc"
  = (svc, resolvedPlatform amd64Host "linux/amd64", None)
  /\ exists msg,
       ProcessPlatformAndConfig amd64Host nameRequired noFlags
         (configOf [unnamed; svc]) "linux/amd64" "svc"
       = (zeroOCIArtifact, "", Some msg).
Proof.
  split.
  - apply (selection_validates_up_to_match amd64Host nameRequired
             noFlags (configOf [svc; unnamed]) "linux/amd64" "svc"
             [] svc [unnamed]).
    + exact supported_amd64.
    + reflexivity.
    + intros x [].
    + reflexivity.
    + intros x [<-|[]]. reflexivity.
  - apply (selection_validates_up_to_match amd64Host nameRequired
             noFlags (configOf [unnamed; svc]) "linux/amd64" "svc"
             [unnamed] svc []).
    + exact supported_amd64.
    + reflexivity.
    + intros x [<-|[]]. discriminate.
    + reflexivity.
    + exists unnamed. split; [now left | discriminate].
Defined.

Lemma platform_validation_witness :
  ((substring_of "linux/amd64" "linux/arm64/v8"
    \/ substring_of "linux/arm64" "linux/arm64/v8")
   <-> snd (ProcessPlatformAndConfig amd64Host nameRequired noFlags
              (configOf [svc]) "linux/arm64/v8" "svc")
       <> Some ("Platform " ++ platform noFlags
                ++ " is not supported. Supported platforms are linux/amd64, linux/arm64"))
  /\ ProcessPlatformAndConfig amd64Host nameRequired noFlags
       (configOf [svc]) "windows/amd64" "svc"
     = (zeroOCIArtifact, "",
        Some ("Platform " ++ platform noFlags
              ++ " is not supported. Supported platforms are linux/amd64, linux/arm64"))
  /\ ProcessPlatformAndConfig darwinHost nameRequired noFlags
       (configOf [svc]) "" "svc"
     = (zeroOCIArtifact, "",
        Some ("Platform " ++ platform noFlags
              ++ " is not supported. Supported platforms are linux/amd64, linux/arm64")).
Proof.
  split; [|split].
  - apply (proj1 (platform_validation amd64Host nameRequired noFlags
                    (configOf [svc]) "linux/arm64/v8" "svc")).
    discriminate.
  - apply (proj1 (platform_validation amd64Host nameRequired noFlags
                    (configOf [svc]) "windows/amd64" "svc")).
    + discriminate.
    + apply Contains_false. reflexivity.
    + apply Contains_false. reflexivity.
  - apply (proj2 (platform_validation darwinHost nameRequired noFlags
                    (configOf [svc]) "" "svc")).
    + reflexivity.
    + apply Contains_false. reflexivity.
    + apply Contains_false. reflexivity.
Defined.

(** C9 as stated fails: ["linux/arm64/v8"] is accepted, because it
    contains ["linux/arm64"], and is returned as it was given, which is
    not one of the supported platforms. *)
Lemma returned_platform_not_canonical :
  ProcessPlatformAndConfig amd64Host nameRequired noFlags
    (configOf [svc]) "linux/arm64/v8" "svc"
  = (svc, "linux/arm64/v8", None)
  /\ ~ In "linux/arm64/v8" supportedPlatforms.
Proof.
  split; [reflexivity|].
  intros [H|[H|[]]]; discriminate.
Qed.

Lemma returned_platform_witness :
  supported "linux/arm64/v8"
  /\ ("linux/arm64/v8" <> "" -> "linux/arm64/v8" = "linux/arm64/v8")
  /\ ("linux/arm64/v8" = "" ->
      "linux/arm64/v8" = fst (amd64Host "") ++ "/" ++ snd (amd64Host "")).
Proof.
  apply (returned_platform amd64Host nameRequired noFlags (configOf [svc])
           "linux/arm64/v8" "svc" svc "linux/arm64/v8").
  reflexivity.
Defined.

Lemma df_swap_terminal_witness :
  exists s',
    (forall buildStates,
       Run amd64Host nameRequired keepLines nameDecode namesEncode plainFormat
         buildStates ["svc"]
         (stateOf dfSwapFlags {[ "bsf.hcl" := "svc:latest" ]} None)
       = (s', Exited 1))
    /\ fs s' = {[ "bsf.hcl" := "svc:latest" ]}
    /\ stdout s' = [(HintStyle, "hint: use --tag flag to define a tag")].
Proof.
  destruct (df_swap_terminal amd64Host nameRequired keepLines nameDecode
              namesEncode plainFormat ["svc"] svc
              (stateOf dfSwapFlags {[ "bsf.hcl" := "svc:latest" ]} None)
              eq_refl)
    as [(s' & Hrun & _ & Hfs & _ & Hline) _].
  destruct (Hline eq_refl) as (line & Hout & _ & _ & _ & Hhint).
  exists s'. split; [exact Hrun|]. split; [exact (Hfs eq_refl)|].
  rewrite Hout.
  rewrite (Hhint "svc" [] (configOf [svc]) svc "linux/amd64" eq_refl
             ltac:(vm_compute; reflexivity) ltac:(vm_compute; reflexivity)).
  reflexivity.
Defined.

(** With [--df-swap] and without a tag, a run that stops before the patch
    step does not print the hint [use --tag flag to define a tag]: when
    [bsf.hcl] is missing, and when the label names no artifact, the one
    line printed before the exit with status 1 is an error. *)
Lemma df_swap_early_exit_prints_no_tag_hint :
  dfSwap dfSwapFlags = true
  /\ tag dfSwapFlags = ""
  /\ (exists msg,
        Run amd64Host nameRequired keepLines nameDecode namesEncode
          plainFormat noBuild ["svc"] (stateOf dfSwapFlags ∅ None)
        = (mkState dfSwapFlags ∅ ∅ [(ErrorStyle, msg)] None, Exited 1)
        /\ ~ In (Render HintStyle ["hint:"; "use --tag flag to define a tag"])
               [(ErrorStyle, msg)])
  /\ Run amd64Host nameRequired keepLines nameDecode namesEncode plainFormat
       noBuild ["db"]
       (stateOf dfSwapFlags {[ "bsf.hcl" := "svc:latest" ]} None)
     = (mkState dfSwapFlags {[ "bsf.hcl" := "svc:latest" ]} ∅
          [(ErrorStyle,
            "error:  error: No such environment found. Valid oci environment that can be built are: svc")]
          (Some (configOf [svc])),
        Exited 1)
  /\ ~ In (Render HintStyle ["hint:"; "use --tag flag to define a tag"])
         [(ErrorStyle,
           "error:  error: No such environment found. Valid oci environment that can be built are: svc")].
Proof.
  split; [reflexivity|]. split; [reflexivity|]. split.
  { eexists. split; [vm_compute; reflexivity|].
    intros [H|[]]. discriminate H. }
  split; [vm_compute; reflexivity|].
  intros [H|[]]. discriminate H.
Qed.

(* ===================================================================== *)
(** * Further properties *)
(* ===================================================================== *)

(** ** [ModifyConfig]: what is replaced, what is written *)

Section ModifyConfigMore.

Variable hclEncode : Config -> string * error.

(** The loop replaces the first artifact that bears the old name, at its
    own index. *)
Lemma modifyLoop_first (oldName : string) (artifact : OCIArtifact)
    (pre : list OCIArtifact) (ex : OCIArtifact) (post : list OCIArtifact)
    (i : nat) (arr : list OCIArtifact) :
  (forall x, In x pre -> Name x <> oldName) ->
  Name ex = oldName ->
  modifyLoop oldName artifact (pre ++ ex :: post) i arr
  = (<[(i + length pre)%nat := artifact]> arr, true).
Proof.
  revert i. induction pre as [|x pre IH]; intros i Hpre Hex.
  - simpl. rewrite Hex, String.eqb_refl, Nat.add_0_r. reflexivity.
  - simpl. destruct (String.eqb_spec (Name x) oldName) as [Heq|_].
    + exfalso. now apply (Hpre x (or_introl eq_refl)).
    + rewrite IH; [|intros y Hy; apply Hpre; now right | assumption].
      now rewrite Nat.add_succ_r.
Qed.

Lemma modifyLoop_whole (oldName : string) (artifact : OCIArtifact)
    (pre : list OCIArtifact) (ex : OCIArtifact) (post : list OCIArtifact) :
  (forall x, In x pre -> Name x <> oldName) ->
  Name ex = oldName ->
  modifyLoop oldName artifact (pre ++ ex :: post) 0 (pre ++ ex :: post)
  = ((pre ++ artifact :: post)%list, true).
Proof.
  intros Hpre Hex. rewrite (modifyLoop_first _ _ _ _ _ _ _ Hpre Hex).
  simpl. f_equal.
  rewrite <- (Nat.add_0_r (length pre)).
  now rewrite (insert_app_r pre (ex :: post) 0 artifact).
Qed.

Lemma modifyLoop_length (oldName : string) (artifact : OCIArtifact)
    (rest : list OCIArtifact) (i : nat) (arr arr' : list OCIArtifact)
    (updated : bool) :
  modifyLoop oldName artifact rest i arr = (arr', updated) ->
  length arr' = length arr.
Proof.
  revert i. induction rest as [|x rest IH]; intros i; simpl.
  - now intros [= <- _].
  - destruct (String.eqb (Name x) oldName).
    + intros [= <- _]. apply length_insert.
    + apply IH.
Qed.

(** The write branch of [ModifyConfig], once the loop has replaced an
    artifact. *)
Lemma ModifyConfig_updated (oldName : string) (artifact : OCIArtifact)
    (s : State) (config : Config) (arr : list OCIArtifact) (buf : string) :
  confObj s = Some config ->
  modifyLoop oldName artifact (OCIArtifact_ config) 0 (OCIArtifact_ config)
  = (arr, true) ->
  hclEncode (setOCIArtifact config arr) = (buf, None) ->
  "bsf.hcl" ∉ denied s ->
  ModifyConfig hclEncode oldName artifact s
  = (setFs (setConfObj s (Some (setOCIArtifact config arr)))
       (<["bsf.hcl" := buf]> (fs s)),
     Ret None).
Proof.
  intros Hconf Hloop Henc Hw.
  unfold ModifyConfig. rewrite Hconf, Hloop.
  unfold WriteConfig. rewrite Henc.
  unfold bind, os_WriteFile. simpl denied.
  destruct (decide ("bsf.hcl" ∈ denied s)); [contradiction|reflexivity].
Qed.

(** [ModifyConfig] on a loaded configuration returns and leaves the flags
    alone. *)
Lemma ModifyConfig_Ret (oldName : string) (artifact : OCIArtifact)
    (s : State) (config : Config) :
  confObj s = Some config ->
  exists s' err,
    ModifyConfig hclEncode oldName artifact s = (s', Ret err)
    /\ flags s' = flags s.
Proof.
  intros Hconf. unfold ModifyConfig. rewrite Hconf.
  destruct (modifyLoop oldName artifact (OCIArtifact_ config) 0
              (OCIArtifact_ config)) as [arr [|]].
  - unfold WriteConfig.
    destruct (hclEncode (setOCIArtifact config arr)) as [buf [e|]].
    + eexists _, _. split; reflexivity.
    + unfold bind, os_WriteFile. simpl denied.
      destruct (decide ("bsf.hcl" ∈ denied s));
        eexists _, _; split; reflexivity.
  - eexists _, _. split; reflexivity.
Qed.

(** X1. When an artifact bears the old name, the document is encodable
    and writable, [ModifyConfig] puts the new artifact in the place of
    the first artifact with that name, leaves all others (later artifacts
    of the same name included) as they are, and writes the encoding of the
    new configuration to [bsf.hcl]. *)
Theorem ModifyConfig_replaces_first (oldName : string)
    (artifact : OCIArtifact) (s : State) (config : Config)
    (pre : list OCIArtifact) (ex : OCIArtifact) (post : list OCIArtifact)
    (buf : string) :
  confObj s = Some config ->
  OCIArtifact_ config = (pre ++ ex :: post)%list ->
  (forall x, In x pre -> Name x <> oldName) ->
  Name ex = oldName ->
  hclEncode (setOCIArtifact config (pre ++ artifact :: post)) = (buf, None) ->
  "bsf.hcl" ∉ denied s ->
  ModifyConfig hclEncode oldName artifact s
  = (setFs (setConfObj s (Some (setOCIArtifact config
                                  (pre ++ artifact :: post))))
       (<["bsf.hcl" := buf]> (fs s)),
     Ret None).
Proof.
  intros Hconf Harts Hpre Hex Henc Hw.
  apply ModifyConfig_updated; try assumption.
  rewrite Harts. now apply modifyLoop_whole.
Qed.


(** X3. Whatever the outcome, [ModifyConfig] on a loaded configuration
    returns to its caller, touches no file other than [bsf.hcl], prints
    nothing, changes no flag, and keeps the number of artifacts and every
    other block of the configuration. *)
Theorem ModifyConfig_frame (oldName : string) (artifact : OCIArtifact)
    (s : State) (config : Config) :
  confObj s = Some config ->
  exists s' err config',
    ModifyConfig hclEncode oldName artifact s = (s', Ret err)
    /\ flags s' = flags s /\ stdout s' = stdout s /\ denied s' = denied s
    /\ (forall p, p <> "bsf.hcl" -> fs s' !! p = fs s !! p)
    /\ confObj s' = Some config'
    /\ length (OCIArtifact_ config') = length (OCIArtifact_ config)
    /\ setOCIArtifact config' (OCIArtifact_ config) = config.
Proof.
  intros Hconf. unfold ModifyConfig. rewrite Hconf.
  destruct (modifyLoop oldName artifact (OCIArtifact_ config) 0
              (OCIArtifact_ config)) as [arr updated] eqn:Hloop.
  assert (Hlen := modifyLoop_length _ _ _ _ _ _ _ Hloop).
  assert (Hback : setOCIArtifact (setOCIArtifact config arr)
                    (OCIArtifact_ config) = config) by now destruct config.
  destruct updated.
  - unfold WriteConfig.
    destruct (hclEncode (setOCIArtifact config arr)) as [buf [e|]].
    + eexists _, _, _. split; [reflexivity|]. simpl. auto 10.
    + unfold bind, os_WriteFile. simpl denied.
      destruct (decide ("bsf.hcl" ∈ denied s)).
      * eexists _, _, _. split; [reflexivity|]. simpl. auto 10.
      * eexists _, _, _. split; [reflexivity|]. simpl.
        repeat split; auto.
        intros p Hp. now rewrite lookup_insert_ne.
  - eexists _, _, _. split; [reflexivity|]. simpl. auto 10.
Qed.

End ModifyConfigMore.

(** ** [getNewName]: applying tags in sequence *)

Lemma Contains_sep_intro (repo rest : string) :
  strings.Contains (repo ++ ":" ++ rest) ":" = true.
Proof. apply Contains_substring. now exists repo, rest. Qed.

Lemma getNewName_with_sep (artifact : OCIArtifact) (repo old tg : string) :
  Name artifact = repo ++ ":" ++ old ->
  strings.Contains repo ":" = false ->
  getNewName artifact tg = (repo ++ ":" ++ tg, None).
Proof.
  intros Hname Hno. unfold getNewName.
  rewrite Hname, Contains_sep_intro.
  destruct (Split_head _ repo old Hno) as [rest ->]. reflexivity.
Qed.

Lemma getNewName_without_sep (artifact : OCIArtifact) (tg : string) :
  strings.Contains (Name artifact) ":" = false ->
  getNewName artifact tg = (Name artifact ++ ":" ++ tg, None).
Proof. intros Hno. unfold getNewName. now rewrite Hno. Qed.

(** X4. Tagging twice is tagging once with the last tag: renaming an
    artifact with the name computed for a first tag and computing the
    name for a second tag gives the name computed for the second tag
    alone, whatever the tags are.  In particular the same tag applied
    again changes nothing. *)
Theorem getNewName_last_tag_wins (artifact : OCIArtifact) (t1 t2 : string) :
  getNewName (setName artifact (fst (getNewName artifact t1))) t2
  = getNewName artifact t2.
Proof.
  destruct (strings.Contains (Name artifact) ":") eqn:Hsep.
  - destruct (Contains_first _ _ Hsep) as (repo & old & Hname & Hno).
    rewrite (getNewName_with_sep artifact repo old t1 Hname Hno).
    rewrite (getNewName_with_sep artifact repo old t2 Hname Hno).
    now apply (getNewName_with_sep _ repo t1 t2).
  - rewrite (getNewName_without_sep artifact t1 Hsep).
    rewrite (getNewName_without_sep artifact t2 Hsep).
    now apply (getNewName_with_sep _ (Name artifact) t1 t2).
Qed.

(** The name computed by [getNewName] always contains the separator,
    and the part before its first separator is the same as in the old
    name: only what follows the first [":"] is given up. *)
Lemma getNewName_keeps_repository (artifact : OCIArtifact) (tg : string) :
  exists repo,
    ~ substring_of ":" repo
    /\ fst (getNewName artifact tg) = repo ++ ":" ++ tg
    /\ (Name artifact = repo
        \/ exists old, Name artifact = repo ++ ":" ++ old).
Proof.
  destruct (strings.Contains (Name artifact) ":") eqn:Hsep.
  - destruct (Contains_first _ _ Hsep) as (repo & old & Hname & Hno).
    exists repo. split; [now apply Contains_false|].
    rewrite (getNewName_with_sep artifact repo old tg Hname Hno).
    split; [reflexivity | right; now exists old].
  - exists (Name artifact). split; [now apply Contains_false|].
    rewrite (getNewName_without_sep artifact tg Hsep).
    split; [reflexivity | now left].
Qed.

(** ** [genOCIAttrName]: targets that never coincide *)

(** X5. For the same label and platform, the build target with
    development dependencies is never the build target without them. *)
Theorem genOCIAttrName_dev_differs (fl1 fl2 : Flags) (env plat : string)
    (a1 a2 : OCIArtifact) :
  devDeps fl1 = true -> devDeps fl2 = false ->
  genOCIAttrName fl1 env plat a1 <> genOCIAttrName fl2 env plat a2.
Proof.
  intros H1 H2. unfold genOCIAttrName. rewrite H1, H2.
  destruct (String.eqb env "pkgs"); intros H;
    apply String.app_inj in H; discriminate.
Qed.

Lemma genOCIAttrName_unknown (fl : Flags) (env plat : string)
    (artifact : OCIArtifact) :
  ~ In plat supportedPlatforms ->
  genOCIAttrName fl env plat artifact
  = "bsf/.#ociImages.unknown.ociImage_" ++ env ++ "_"
    ++ (if String.eqb env "pkgs"
        then if devDeps fl then "dev-as-dir" else "runtime-as-dir"
        else if devDeps fl then "app_with_dev-as-dir" else "app-as-dir").
Proof.
  intros Hno. unfold genOCIAttrName.
  destruct (String.eqb_spec plat "linux/amd64") as [->|_].
  { exfalso. apply Hno. now left. }
  destruct (String.eqb_spec plat "linux/arm64") as [->|_].
  { exfalso. apply Hno. right. now left. }
  destruct (String.eqb env "pkgs"), (devDeps fl);
    now rewrite !append_assoc.
Qed.

(** ** [ProcessPlatformAndConfig]: what a result tells *)

Section ResolutionMore.

Variable FindPlatform : string -> string * string.
Variable Validate : OCIArtifact -> Config -> option string.

(** How the artifact loop can be left without an error. *)
Lemma artifactLoop_left (conf : Config) (envName : string)
    (ecs : list OCIArtifact) (envNames envNames' : list string)
    (found : bool) (a : OCIArtifact) :
  artifactLoop Validate conf envName ecs envNames = inr (envNames', found, a) ->
  if found then
    exists pre rest,
      ecs = (pre ++ a :: rest)%list
      /\ Artifact a = envName
      /\ (forall x, In x (pre ++ [a]) -> Validate x conf = None)
      /\ (forall x, In x pre -> Artifact x <> envName)
  else
    a = zeroOCIArtifact
    /\ envNames' = (envNames ++ map Artifact ecs)%list
    /\ (forall x, In x ecs -> Validate x conf = None)
    /\ (forall x, In x ecs -> Artifact x <> envName).
Proof.
  revert envNames. induction ecs as [|x ecs IH]; intros envNames; simpl.
  - intros [= <- <- <-]. rewrite app_nil_r.
    repeat split; intros y [].
  - destruct (Validate x conf) as [e|] eqn:Hx; [discriminate|].
    destruct (String.eqb_spec (Artifact x) envName) as [Heq|Hne].
    + intros [= <- <- <-]. exists [], ecs.
      split; [reflexivity|]. split; [assumption|].
      split; [intros y [<-|[]]; assumption | intros y []].
    + intros H. specialize (IH _ H). destruct found.
      * destruct IH as (pre & rest & -> & Ha & Hval & Hlab).
        exists (x :: pre), rest. split; [reflexivity|].
        split; [assumption|]. split.
        -- intros y [<-|Hy]; [assumption | now apply Hval].
        -- intros y [<-|Hy]; [assumption | now apply Hlab].
      * destruct IH as (Ha & Hnames & Hval & Hlab).
        split; [assumption|]. split.
        -- rewrite Hnames, <- app_assoc. reflexivity.
        -- split; intros y [<-|Hy]; auto.
Qed.

(** X6. A successful [ProcessPlatformAndConfig] returns an artifact of the
    configuration that bears the requested label and is the first to bear
    it; that artifact and every artifact before it passed validation. *)
Theorem selection_sound (fl : Flags) (conf : Config) (plat envName : string)
    (a : OCIArtifact) (p : string) :
  ProcessPlatformAndConfig FindPlatform Validate fl conf plat envName
  = (a, p, None) ->
  exists pre rest,
    OCIArtifact_ conf = (pre ++ a :: rest)%list
    /\ Artifact a = envName
    /\ (forall x, In x (pre ++ [a]) -> Validate x conf = None)
    /\ (forall x, In x pre -> Artifact x <> envName).
Proof.
  rewrite ProcessPlatformAndConfig_resolved.
  destruct (platformLoop _ supportedPlatforms); [|discriminate].
  simpl negb. cbv iota.
  destruct (artifactLoop Validate conf envName (OCIArtifact_ conf) [])
    as [msg|[[envNames found] art]] eqn:Hloop; [discriminate|].
  destruct found; [|discriminate].
  intros [= <- _]. exact (artifactLoop_left _ _ _ _ _ _ _ Hloop).
Qed.

(** X7. A failing [ProcessPlatformAndConfig] returns the zero artifact and
    an empty platform, and its error is one of three: the platform error,
    when the resolved platform is not supported; the validation error of an
    artifact of the configuration that fails validation; or the
    unknown-label error, which appears only when every artifact is valid
    and none bears the label. *)
Theorem failure_kinds (fl : Flags) (conf : Config) (plat envName : string)
    (a : OCIArtifact) (p : string) (err : string) :
  ProcessPlatformAndConfig FindPlatform Validate fl conf plat envName
  = (a, p, Some err) ->
  a = zeroOCIArtifact /\ p = ""
  /\ ((~ supported (resolvedPlatform FindPlatform plat)
       /\ err = "Platform " ++ platform fl
                ++ " is not supported. Supported platforms are linux/amd64, linux/arm64")
      \/ (supported (resolvedPlatform FindPlatform plat)
          /\ exists x msg,
               In x (OCIArtifact_ conf) /\ Validate x conf = Some msg
               /\ err = "Config for export block " ++ Name x ++ " is invalid"
                        ++ LF ++ " Error: " ++ msg)
      \/ (supported (resolvedPlatform FindPlatform plat)
          /\ (forall x, In x (OCIArtifact_ conf) -> Validate x conf = None)
          /\ (forall x, In x (OCIArtifact_ conf) -> Artifact x <> envName)
          /\ err = "error: No such environment found. Valid oci environment that can be built are: "
                   ++ strings.Join (map Artifact (OCIArtifact_ conf)) ", ")).
Proof.
  rewrite ProcessPlatformAndConfig_resolved.
  destruct (platformLoop (resolvedPlatform FindPlatform plat)
              supportedPlatforms) eqn:Hp; simpl negb; cbv iota.
  - apply (platformLoop_supported FindPlatform) in Hp.
    destruct (artifactLoop Validate conf envName (OCIArtifact_ conf) [])
      as [msg|[[envNames found] art]] eqn:Hloop.
    + intros [= <- <- <-]. split; [reflexivity|]. split; [reflexivity|].
      right. left. split; [assumption|].
      destruct (artifactLoop_error _ _ _ _ _ _ Hloop) as (x & e & Hin & Hx & ->).
      now exists x, e.
    + destruct found; simpl negb; cbv iota; [discriminate|].
      intros [= <- <- <-]. split; [reflexivity|]. split; [reflexivity|].
      right. right.
      destruct (artifactLoop_left _ _ _ _ _ _ _ Hloop)
        as (_ & Hnames & Hval & Hlab).
      rewrite Hnames. simpl app.
      split; [assumption|]. split; [assumption|]. split; [assumption|].
      reflexivity.
  - intros [= <- <- <-]. split; [reflexivity|]. split; [reflexivity|].
    left. split; [|reflexivity].
    intros Hyes. apply (platformLoop_supported FindPlatform) in Hyes. congruence.
Qed.

(** X8. A given platform string that is accepted because it contains an
    allowlist entry, without being one, is handed on as it is, and the
    build target computed from it has the architecture segment
    [unknown]. *)
Theorem accepted_variant_builds_unknown (fl fl' : Flags) (conf : Config)
    (plat envName : string) (a a' : OCIArtifact) (p env : string) :
  ProcessPlatformAndConfig FindPlatform Validate fl conf plat envName
  = (a, p, None) ->
  plat <> "" ->
  ~ In plat supportedPlatforms ->
  supported p
  /\ genOCIAttrName fl' env p a'
     = "bsf/.#ociImages.unknown.ociImage_" ++ env ++ "_"
       ++ (if String.eqb env "pkgs"
           then if devDeps fl' then "dev-as-dir" else "runtime-as-dir"
           else if devDeps fl' then "app_with_dev-as-dir" else "app-as-dir").
Proof.
  intros Hsel Hne Hnot.
  rewrite ProcessPlatformAndConfig_resolved in Hsel.
  destruct (platformLoop (resolvedPlatform FindPlatform plat)
              supportedPlatforms) eqn:Hp; [|discriminate].
  simpl negb in Hsel. cbv iota in Hsel.
  destruct (artifactLoop Validate conf envName (OCIArtifact_ conf) [])
    as [msg|[[envNames found] art]]; [discriminate|].
  destruct found; [|discriminate].
  injection Hsel as _ Hplat.
  rewrite (resolvedPlatform_given FindPlatform plat Hne) in Hplat, Hp.
  subst p. split; [now apply (platformLoop_supported FindPlatform)|].
  now apply genOCIAttrName_unknown.
Qed.

End ResolutionMore.

(** ** The files the command reads and writes *)

(** One statement that returns: go on with its value. *)
Ltac go_on := erewrite bind_Ret by reflexivity; cbv beta iota.

Section CommandMore.

Variable FindPlatform : string -> string * string.
Variable Validate : OCIArtifact -> Config -> option string.
Variable ModifyDockerfile : string -> bool -> string -> list string * error.
Variable hclDecode : string -> Config + (string * string).
Variable hclEncode : Config -> string * error.
Variable Errorf0 : string -> string.


(** X10. [ReadHclFile] changes nothing.  It returns a configuration
    exactly when the read succeeds and the content decodes, and then the
    decoded one; when the read fails, the error is [error: ] followed by
    the error of the read, whatever that is; for a content that does not
    decode it is the diagnostics text, used as a format string. *)
Theorem ReadHclFile_outcome (fileName : string) (s : State) :
  exists r,
    ReadHclFile hclDecode Errorf0 fileName s = (s, Ret r)
    /\ match r with
       | inl conf =>
           exists data,
             os_ReadFile fileName s = (s, Ret (data, None))
             /\ hclDecode data = inl conf
       | inr err =>
           (exists data readErr,
              os_ReadFile fileName s = (s, Ret (data, Some readErr))
              /\ err = "error: " ++ readErr)
           \/ (exists data dstErr e,
                 os_ReadFile fileName s = (s, Ret (data, None))
                 /\ hclDecode data = inr (dstErr, e)
                 /\ err = Errorf0 dstErr)
       end.
Proof.
  destruct (os_ReadFile_returns fileName s) as (data & readErr & Hread).
  unfold ReadHclFile, ReadConfig.
  rewrite (bind_Ret _ _ _ _ _ Hread).
  destruct readErr as [readErr|].
  - exists (inr ("error: " ++ readErr)). split; [reflexivity|].
    left. now exists data, readErr.
  - destruct (hclDecode data) as [conf|[dstErr e]] eqn:Hdec.
    + exists (inl conf). split; [reflexivity|]. now exists data.
    + exists (inr (Errorf0 dstErr)). split; [reflexivity|].
      right. now exists data, dstErr, e.
Qed.


(** *** [Run] up to the build states *)

Lemma patchDockerfile_skipped (s : State) :
  dfSwap (flags s) = false ->
  patchDockerfile ModifyDockerfile s = (s, Ret tt).
Proof.
  intros Hdf. unfold patchDockerfile, bind, getFlags.
  now rewrite Hdf.
Qed.

Lemma mutateName_skipped (artifact : OCIArtifact) (s : State) :
  tag (flags s) = "" ->
  mutateName hclEncode artifact s = (s, Ret artifact).
Proof.
  intros Htag. unfold mutateName, bind, getFlags.
  now rewrite Htag.
Qed.

Lemma mutateName_tagged (artifact : OCIArtifact) (s s' : State)
    (err : error) :
  tag (flags s) <> "" -> dfSwap (flags s) = false ->
  ModifyConfig hclEncode (Name artifact)
    (setName artifact (fst (getNewName artifact (tag (flags s))))) s
  = (s', Ret err) ->
  mutateName hclEncode artifact s
  = match err with
    | Some msg =>
        (setStdout s' (stdout s' ++ [Render ErrorStyle ["error: "; msg]]),
         Exited 1)
    | None =>
        (s', Ret (setName artifact
                    (fst (getNewName artifact (tag (flags s))))))
    end.
Proof.
  intros Htag Hdf Hmod.
  apply String.eqb_neq in Htag.
  unfold mutateName.
  rewrite (bind_Ret _ _ s s (flags s) eq_refl).
  rewrite Htag, Hdf. cbn [negb andb].
  destruct (getNewName artifact (tag (flags s))) as [newName e] eqn:Hnew.
  assert (He : e = None) by (unfold getNewName in Hnew; congruence).
  subst e. cbn [fst] in *. cbv beta iota zeta.
  rewrite (bind_Ret _ _ s s tt eq_refl).
  rewrite (bind_Ret _ _ _ _ _ Hmod).
  destruct err as [msg|]; reflexivity.
Qed.

Lemma mutateOrPatch_plain (artifact : OCIArtifact) (s : State) :
  tag (flags s) = "" -> dfSwap (flags s) = false ->
  mutateOrPatch ModifyDockerfile hclEncode artifact s = (s, Ret artifact).
Proof.
  intros Htag Hdf. unfold mutateOrPatch.
  rewrite (bind_Ret _ _ _ _ _ (mutateName_skipped artifact s Htag)).
  rewrite (bind_Ret _ _ _ _ _ (patchDockerfile_skipped s Hdf)).
  reflexivity.
Qed.

Lemma mutateOrPatch_tagged (artifact : OCIArtifact) (s s' : State)
    (err : error) :
  tag (flags s) <> "" -> dfSwap (flags s) = false ->
  ModifyConfig hclEncode (Name artifact)
    (setName artifact (fst (getNewName artifact (tag (flags s))))) s
  = (s', Ret err) ->
  flags s' = flags s ->
  mutateOrPatch ModifyDockerfile hclEncode artifact s
  = match err with
    | Some msg =>
        (setStdout s' (stdout s' ++ [Render ErrorStyle ["error: "; msg]]),
         Exited 1)
    | None =>
        (s', Ret (setName artifact
                    (fst (getNewName artifact (tag (flags s))))))
    end.
Proof.
  intros Htag Hdf Hmod Hfl. unfold mutateOrPatch.
  assert (Hname := mutateName_tagged artifact s s' err Htag Hdf Hmod).
  destruct err as [msg|].
  - now rewrite (bind_Exited _ _ _ _ _ Hname).
  - rewrite (bind_Ret _ _ _ _ _ Hname).
    rewrite (bind_Ret _ _ s' s' tt);
      [reflexivity | apply patchDockerfile_skipped; congruence].
Qed.

Lemma modifyDockerfileWithTag_Ret (path tg : string) (dev : bool) (s : State) :
  exists s' err,
    modifyDockerfileWithTag ModifyDockerfile path tg dev s = (s', Ret err).
Proof.
  unfold modifyDockerfileWithTag, bind, os_ReadFile.
  destruct (fs s !! _) as [file|]; [|eexists _, _; reflexivity].
  destruct (ModifyDockerfile file dev tg) as [resLines [e|]];
    [eexists _, _; reflexivity|].
  unfold os_WriteFile, ret.
  destruct (decide (_ ∈ denied s)); eexists _, _; reflexivity.
Qed.

Lemma patchDockerfile_taken (s : State) :
  dfSwap (flags s) = true ->
  exists s', patchDockerfile ModifyDockerfile s = (s', Exited 1).
Proof.
  intros Hdf. unfold patchDockerfile.
  rewrite (bind_Ret _ _ s s (flags s) eq_refl). rewrite Hdf.
  destruct (String.eqb (tag (flags s)) ""); cbn [negb].
  - eexists. reflexivity.
  - destruct (modifyDockerfileWithTag_Ret (path (flags s)) (tag (flags s))
                (devDeps (flags s)) s) as (s1 & err & Hrun).
    unfold bind at 1. unfold bind at 1. rewrite Hrun.
    destruct err as [msg|]; eexists; reflexivity.
Qed.

(** The MutateOrPatch state either ends the process with status 1 or
    hands an artifact on. *)
Lemma mutateOrPatch_outcome (artifact : OCIArtifact) (s : State)
    (config : Config) :
  confObj s = Some config ->
  (exists s', mutateOrPatch ModifyDockerfile hclEncode artifact s
              = (s', Exited 1))
  \/ (exists a' s', mutateOrPatch ModifyDockerfile hclEncode artifact s
                    = (s', Ret a')).
Proof.
  intros Hconf. destruct (dfSwap (flags s)) eqn:Hdf.
  - left. destruct (patchDockerfile_taken s Hdf) as [s' Hrun].
    exists s'. unfold mutateOrPatch.
    rewrite (bind_Ret _ _ _ _ _ (mutateName_dfSwap hclEncode artifact s Hdf)).
    now rewrite (bind_Exited _ _ _ _ _ Hrun).
  - destruct (String.eqb_spec (tag (flags s)) "") as [Htag|Htag].
    + right. exists artifact, s. now apply mutateOrPatch_plain.
    + destruct (ModifyConfig_Ret hclEncode (Name artifact)
                  (setName artifact
                     (fst (getNewName artifact (tag (flags s))))) s config
                  Hconf) as (s' & err & Hmod & Hfl).
      rewrite (mutateOrPatch_tagged artifact s s' err Htag Hdf Hmod Hfl).
      destruct err as [msg|]; [left | right]; eexists; try eexists;
        reflexivity.
Qed.

(** [Run] once the document is read and the artifact selected. *)
Lemma Run_resolved (buildStates : OCIArtifact -> M unit)
    (arg0 : string) (rest : list string) (s : State) (conf : Config)
    (a : OCIArtifact) (p : string) :
  ReadHclFile hclDecode Errorf0 "bsf.hcl" s = (s, Ret (inl conf)) ->
  ProcessPlatformAndConfig FindPlatform Validate (flags s) conf
    (platform (flags s)) arg0 = (a, p, None) ->
  Run FindPlatform Validate ModifyDockerfile hclDecode hclEncode Errorf0
    buildStates (arg0 :: rest) s
  = (artifact <- mutateOrPatch ModifyDockerfile hclEncode a ;;
     buildStates artifact)
      (setFlags (setConfObj s (Some conf)) (setPlatform (flags s) p)).
Proof.
  intros Hread Hsel. unfold Run.
  rewrite (bind_Ret _ _ _ _ _ Hread). cbv beta iota.
  do 2 go_on.
  change (flags (setConfObj s (Some conf))) with (flags s).
  rewrite Hsel. do 2 go_on. reflexivity.
Qed.

(** X12. Without a tag and without [--df-swap], once the document is read
    and the artifact selected, [Run] enters the build states with the
    selected artifact; on the way it has only recorded the resolved
    platform in the [platform] variable: no file is written and nothing is
    printed. *)
Theorem Run_hands_over (buildStates : OCIArtifact -> M unit)
    (arg0 : string) (rest : list string) (s : State) (conf : Config)
    (a : OCIArtifact) (p : string) :
  tag (flags s) = "" -> dfSwap (flags s) = false ->
  ReadHclFile hclDecode Errorf0 "bsf.hcl" s = (s, Ret (inl conf)) ->
  ProcessPlatformAndConfig FindPlatform Validate (flags s) conf
    (platform (flags s)) arg0 = (a, p, None) ->
  Run FindPlatform Validate ModifyDockerfile hclDecode hclEncode Errorf0
    buildStates (arg0 :: rest) s
  = buildStates a
      (mkState (setPlatform (flags s) p) (fs s) (denied s) (stdout s)
         (Some conf)).
Proof.
  intros Htag Hdf Hread Hsel.
  rewrite (Run_resolved _ _ _ _ _ _ _ Hread Hsel).
  erewrite bind_Ret; [reflexivity|].
  now apply mutateOrPatch_plain.
Qed.

(** X13. With a tag and without [--df-swap], once the document is read and
    the artifact selected, [Run] renames the selected artifact, puts it in
    the place of the first artifact of the configuration that has the old
    image name, writes the new configuration to [bsf.hcl] and enters the
    build states with the renamed artifact. *)
Theorem Run_persists_tag (buildStates : OCIArtifact -> M unit)
    (arg0 : string) (rest : list string) (s : State) (conf : Config)
    (a : OCIArtifact) (p : string)
    (pre : list OCIArtifact) (ex : OCIArtifact) (post : list OCIArtifact)
    (buf : string) :
  tag (flags s) <> "" -> dfSwap (flags s) = false ->
  ReadHclFile hclDecode Errorf0 "bsf.hcl" s = (s, Ret (inl conf)) ->
  ProcessPlatformAndConfig FindPlatform Validate (flags s) conf
    (platform (flags s)) arg0 = (a, p, None) ->
  OCIArtifact_ conf = (pre ++ ex :: post)%list ->
  (forall x, In x pre -> Name x <> Name a) ->
  Name ex = Name a ->
  hclEncode
    (setOCIArtifact conf
       (pre ++ setName a (fst (getNewName a (tag (flags s)))) :: post))
  = (buf, None) ->
  "bsf.hcl" ∉ denied s ->
  Run FindPlatform Validate ModifyDockerfile hclDecode hclEncode Errorf0
    buildStates (arg0 :: rest) s
  = buildStates (setName a (fst (getNewName a (tag (flags s)))))
      (mkState (setPlatform (flags s) p) (<["bsf.hcl" := buf]> (fs s))
         (denied s) (stdout s)
         (Some (setOCIArtifact conf
                  (pre ++ setName a (fst (getNewName a (tag (flags s))))
                       :: post)))).
Proof.
  intros Htag Hdf Hread Hsel Harts Hpre Hex Henc Hw.
  rewrite (Run_resolved _ _ _ _ _ _ _ Hread Hsel).
  set (s2 := setFlags (setConfObj s (Some conf)) (setPlatform (flags s) p)).
  assert (Hmod :
    ModifyConfig hclEncode (Name a)
      (setName a (fst (getNewName a (tag (flags s2))))) s2
    = (mkState (setPlatform (flags s) p) (<["bsf.hcl" := buf]> (fs s))
         (denied s) (stdout s)
         (Some (setOCIArtifact conf
                  (pre ++ setName a (fst (getNewName a (tag (flags s))))
                       :: post))),
       Ret None)).
  { rewrite (ModifyConfig_updated hclEncode (Name a) _ s2 conf
               (pre ++ setName a (fst (getNewName a (tag (flags s)))) :: post)
               buf eq_refl); [reflexivity | | assumption | assumption].
    rewrite Harts. now apply modifyLoop_whole. }
  erewrite bind_Ret; [reflexivity|].
  exact (mutateOrPatch_tagged a s2 _ None Htag Hdf Hmod eq_refl).
Qed.

Lemma Run_two_ways (args : list string) (s : State) :
  (exists s', forall buildStates,
     Run FindPlatform Validate ModifyDockerfile hclDecode hclEncode Errorf0
       buildStates args s = (s', Exited 1))
  \/ (exists a s2, forall buildStates,
        Run FindPlatform Validate ModifyDockerfile hclDecode hclEncode Errorf0
          buildStates args s = buildStates a s2).
Proof.
  destruct args as [|arg0 rest].
  { left. eexists. intros. reflexivity. }
  destruct (ReadHclFile_returns hclDecode Errorf0 "bsf.hcl" s) as [r Hread].
  destruct r as [conf|err].
  2:{ left. eexists. intros. unfold Run.
      rewrite (bind_Ret _ _ _ _ _ Hread). reflexivity. }
  destruct (ProcessPlatformAndConfig FindPlatform Validate (flags s) conf
              (platform (flags s)) arg0) as [[a p] err] eqn:Hsel.
  destruct err as [msg|].
  { left. eexists. intros. unfold Run.
    rewrite (bind_Ret _ _ _ _ _ Hread). cbv beta iota.
    do 2 go_on.
    change (flags (setConfObj s (Some conf))) with (flags s).
    rewrite Hsel. reflexivity. }
  set (s2 := setFlags (setConfObj s (Some conf)) (setPlatform (flags s) p)).
  destruct (mutateOrPatch_outcome a s2 conf eq_refl)
    as [[s' Hrun]|(a' & s' & Hrun)].
  - left. exists s'. intros.
    rewrite (Run_resolved _ _ _ _ _ _ _ Hread Hsel).
    now rewrite (bind_Exited _ _ _ _ _ Hrun).
  - right. exists a', s'. intros.
    rewrite (Run_resolved _ _ _ _ _ _ _ Hread Hsel).
    now rewrite (bind_Ret _ _ _ _ _ Hrun).
Qed.

(** X14. [Run] has two ways to go: it ends the process with status 1
    before the build states, whatever they are, or it hands over to the
    build states, once, with an artifact and a state that do not depend on
    them. *)
Theorem Run_exits_or_builds (args : list string) (s : State) :
  (exists s', forall buildStates,
     Run FindPlatform Validate ModifyDockerfile hclDecode hclEncode Errorf0
       buildStates args s = (s', Exited 1))
  \/ (exists a s2, forall buildStates,
        Run FindPlatform Validate ModifyDockerfile hclDecode hclEncode Errorf0
          buildStates args s = buildStates a s2).
Proof.
  destruct (Run_two_ways args s) as [[s' Hexit]|(a & s2 & Hbuild)].
  - left. now exists s'.
  - right. now exists a, s2.
Qed.

End CommandMore.

(** ** [AddPackages] and [SetPackages] *)

Section PackagesFacts.

Variable hclDecode : string -> Config + (string * string).
Variable hclEncode : Config -> string * error.
Variable ParsePackage : string -> string * string.
Variable PreferNewSliceElements :
  list string -> list string -> (string -> string) -> list string.

(** On a document that does not decode, neither [AddPackages] nor
    [SetPackages] writes anything; both return the decoder's error. *)
Lemma packages_need_a_valid_document (src : string) (packages : Packages)
    (dstErr err : string) :
  hclDecode src = inr (dstErr, err) ->
  AddPackages hclDecode hclEncode ParsePackage PreferNewSliceElements
    src packages = ("", Some err)
  /\ SetPackages hclDecode hclEncode src packages = ("", Some err).
Proof.
  intros Hdec. unfold AddPackages, SetPackages, ReadConfig.
  rewrite Hdec. split; reflexivity.
Qed.

Lemma setPackages_twice (c : Config) (p1 p2 : Packages) :
  setPackages (setPackages c p1) p2 = setPackages c p2.
Proof. reflexivity. Qed.

(** X15. [SetPackages] replaces and does not accumulate: when the document
    written for a first package set decodes to what was encoded, setting a
    second package set on it writes the same as setting the second set on
    the original document, and setting the first set again rewrites the
    same document. *)
Theorem SetPackages_last_wins (src : string) (c : Config)
    (p1 p2 : Packages) (buf : string) :
  hclDecode src = inl c ->
  hclEncode (setPackages c p1) = (buf, None) ->
  hclDecode buf = inl (setPackages c p1) ->
  SetPackages hclDecode hclEncode src p1 = (buf, None)
  /\ SetPackages hclDecode hclEncode buf p2
     = SetPackages hclDecode hclEncode src p2
  /\ SetPackages hclDecode hclEncode buf p1 = (buf, None).
Proof.
  intros Hsrc Henc Hbuf. unfold SetPackages, ReadConfig, WriteConfig.
  rewrite Hsrc, Hbuf, !setPackages_twice, Henc.
  repeat split.
Qed.

End PackagesFacts.

(** ** The build states *)

Lemma bind_external {R A : Type} (tool : State -> State * R) (k : R -> M A)
    (s t : State) (r : R) :
  tool s = (t, r) ->
  bind (external tool) k s
  = k r (mkState (flags s) (fs t) (denied t) (stdout s) (confObj s)).
Proof. intros H. unfold bind, external. now rewrite H. Qed.

Lemma bind_exitOnError_None {A : Type} (k : unit -> M A) (s : State) :
  bind (exitOnError None) k s = k tt s.
Proof. reflexivity. Qed.

Lemma bind_exitOnError_Some {A : Type} (msg : string) (k : unit -> M A)
    (s : State) :
  bind (exitOnError (Some msg)) k s
  = (setStdout s (stdout s ++ [Render ErrorStyle ["error: "; msg]]),
     Exited 1).
Proof. reflexivity. Qed.

Lemma bind_exitOnErrorTight_None {A : Type} (k : unit -> M A) (s : State) :
  bind (exitOnErrorTight None) k s = k tt s.
Proof. reflexivity. Qed.

Lemma bind_exitOnErrorTight_Some {A : Type} (msg : string) (k : unit -> M A)
    (s : State) :
  bind (exitOnErrorTight (Some msg)) k s
  = (setStdout s (stdout s ++ [Render ErrorStyle ["error:"; msg]]),
     Exited 1).
Proof. reflexivity. Qed.

Lemma bind_getFlags {A : Type} (k : Flags -> M A) (s : State) :
  bind getFlags k s = k (flags s) s.
Proof. reflexivity. Qed.

Lemma bind_Println {A : Type} (line : Style * string) (k : unit -> M A)
    (s : State) :
  bind (Println line) k s = k tt (setStdout s (stdout s ++ [line])).
Proof. reflexivity. Qed.

(** The output directory once [if output == ""] is passed. *)
Lemma default_output (fl : Flags) {A : Type} (k : unit -> M A) (s : State) :
  bind (if String.eqb (output fl) "" then putFlags (setOutput fl "bsf-result")
        else ret tt) k s
  = k tt (if String.eqb (output fl) ""
          then setFlags s (setOutput fl "bsf-result") else s).
Proof. now destruct (String.eqb (output fl) ""). Qed.

Lemma buildKeeps_refl (s : State) : buildKeeps s s.
Proof.
  unfold buildKeeps. split; [reflexivity|]. split; [now destruct (flags s)|].
  split; [now left|]. exists []. now rewrite app_nil_r.
Qed.

Lemma buildKeeps_trans (s1 s2 s3 : State) :
  buildKeeps s1 s2 -> buildKeeps s2 s3 -> buildKeeps s1 s3.
Proof.
  intros (Hc1 & Hf1 & Ho1 & out1 & Hs1) (Hc2 & Hf2 & Ho2 & out2 & Hs2).
  unfold buildKeeps. split; [congruence|]. split; [|split].
  - rewrite <- Hf1. rewrite <- Hf2 at 2. reflexivity.
  - destruct Ho1 as [Ho1|[Ho1 Ho1']], Ho2 as [Ho2|[Ho2 Ho2']].
    + left. congruence.
    + right. split; congruence.
    + right. split; congruence.
    + rewrite Ho1' in Ho2. discriminate.
  - exists (out1 ++ out2)%list. rewrite Hs2, Hs1. now rewrite app_assoc.
Qed.

Lemma buildKeeps_print (s : State) (line : Style * string) :
  buildKeeps s (setStdout s (stdout s ++ [line])).
Proof.
  unfold buildKeeps. simpl. split; [reflexivity|].
  split; [now destruct (flags s)|]. split; [now left|]. now exists [line].
Qed.

Lemma orderly_ret {A : Type} (a : A) : orderly (ret a).
Proof.
  intros s s' r [= <- <-]. split; [apply buildKeeps_refl | exact I].
Qed.

Lemma orderly_bind {A B0 : Type} (c : M A) (k : A -> M B0) :
  orderly c -> (forall a, orderly (k a)) -> orderly (bind c k).
Proof.
  intros Hc Hk s s' r. unfold bind.
  destruct (c s) as [s1 [a|code]] eqn:Hrun.
  - intros Hrest. destruct (Hc _ _ _ Hrun) as [Hkeep _].
    destruct (Hk a _ _ _ Hrest) as [Hkeep' Hres].
    split; [exact (buildKeeps_trans _ _ _ Hkeep Hkeep') | exact Hres].
  - intros [= <- <-]. exact (Hc _ _ _ Hrun).
Qed.

Lemma orderly_getFlags : orderly getFlags.
Proof.
  intros s s' r [= <- <-]. split; [apply buildKeeps_refl | exact I].
Qed.

Lemma orderly_Println (line : Style * string) : orderly (Println line).
Proof.
  intros s s' r [= <- <-]. split; [apply buildKeeps_print | exact I].
Qed.

Lemma orderly_external {R : Type} (tool : State -> State * R) :
  orderly (external tool).
Proof.
  intros s s' r. unfold external. destruct (tool s) as [t x].
  intros [= <- <-]. split; [|exact I].
  unfold buildKeeps. simpl. split; [reflexivity|].
  split; [now destruct (flags s)|]. split; [now left|].
  exists []. now rewrite app_nil_r.
Qed.

Lemma orderly_ReadFile (name : string) : orderly (os_ReadFile name).
Proof.
  intros s s' r. unfold os_ReadFile.
  destruct (fs s !! name); intros [= <- <-];
    (split; [apply buildKeeps_refl | exact I]).
Qed.

Lemma orderly_exitOnError (err : error) : orderly (exitOnError err).
Proof.
  destruct err as [msg|]; [|apply orderly_ret].
  intros s s' r [= <- <-]. split; [apply buildKeeps_print|].
  split; [reflexivity|]. now eexists _, _.
Qed.

Lemma orderly_exitOnErrorTight (err : error) : orderly (exitOnErrorTight err).
Proof.
  destruct err as [msg|]; [|apply orderly_ret].
  intros s s' r [= <- <-]. split; [apply buildKeeps_print|].
  split; [reflexivity|]. now eexists _, _.
Qed.

Lemma orderly_default_output (fl : Flags) :
  orderly (fl <- getFlags ;;
           if String.eqb (output fl) "" then putFlags (setOutput fl "bsf-result")
           else ret tt).
Proof.
  intros s s' r. rewrite bind_getFlags.
  destruct (String.eqb_spec (output (flags s)) "") as [Hout|Hout].
  - intros [= <- <-]. split; [|exact I].
    unfold buildKeeps. simpl. split; [reflexivity|].
    split; [now destruct (flags s)|]. split; [now right|].
    exists []. now rewrite app_nil_r.
  - intros [= <- <-]. split; [apply buildKeeps_refl | exact I].
Qed.

(** The failure branch of the Docker step. *)
Lemma orderly_docker_failure (msg : string) (expectedInstall : bool) :
  orderly (Println (Render ErrorStyle ["error:"; msg]) ;;
           (if negb expectedInstall
            then Println (Render ErrorStyle ["error:"; "Is Docker installed?"])
            else ret tt) ;;
           @Exit unit 1).
Proof.
  intros s s' r. destruct expectedInstall; intros [= <- <-].
  - split; [apply buildKeeps_print|].
    split; [reflexivity|]. now eexists _, _.
  - split.
    + eapply buildKeeps_trans; apply buildKeeps_print.
    + split; [reflexivity|]. now eexists _, _.
Qed.

(** Building blocks are put together by [orderly_bind]. *)
Ltac orderly_steps :=
  repeat first
    [ apply orderly_getFlags | apply orderly_Println | apply orderly_external
    | apply orderly_ReadFile | apply orderly_exitOnError
    | apply orderly_exitOnErrorTight | apply orderly_ret
    | apply orderly_docker_failure
    | apply orderly_bind; [|intros]
    | match goal with
      | |- orderly (let '(_, _) := ?x in _) => destruct x
      | |- orderly (match ?x with _ => _ end) => destruct x
      | |- orderly (if ?b then _ else _) => destruct b
      end ].

Lemma orderly_default_then {A : Type} (k : M A) :
  orderly k ->
  orderly (fl <- getFlags ;;
           (if String.eqb (output fl) "" then putFlags (setOutput fl "bsf-result")
            else ret tt) ;;
           k).
Proof.
  intros Hk s s' r. rewrite bind_getFlags, default_output.
  intros Hrun. destruct (Hk _ _ _ Hrun) as [Hkeep Hres].
  split; [|exact Hres].
  refine (buildKeeps_trans _ _ _ _ Hkeep).
  destruct (String.eqb_spec (output (flags s)) "") as [Hout|Hout];
    [|apply buildKeeps_refl].
  unfold buildKeeps. simpl. split; [reflexivity|].
  split; [now destruct (flags s)|]. split; [now right|].
  exists []. now rewrite app_nil_r.
Qed.

Section BuildStatesFacts.

Variable FindPlatform : string -> string * string.
Variables SearchClient FileHandlers LockFile AppDetails Graph : Type.
Variable B : BuildTools SearchClient FileHandlers LockFile AppDetails Graph.
Variable D : DistTools.

Lemma orderly_prepareWorkspace : orderly (prepareWorkspace B).
Proof.
  unfold prepareWorkspace.
  apply orderly_bind; [apply orderly_external | intros [[sc fh] err]].
  apply orderly_bind; [apply orderly_exitOnError | intros _].
  apply orderly_bind; [apply orderly_external | intros err'].
  apply orderly_bind; [apply orderly_exitOnError | intros _].
  apply orderly_default_then.
  orderly_steps.
Qed.

Lemma orderly_invokeBuilder (artifact : OCIArtifact) :
  orderly (invokeBuilder B artifact).
Proof. unfold invokeBuilder. orderly_steps. Qed.

Lemma orderly_readLockAndClosure : orderly (readLockAndClosure B).
Proof. unfold readLockAndClosure. orderly_steps. Qed.

Lemma orderly_generateArtifacts (artifact : OCIArtifact)
    (lockFile : LockFile) (appDetails : AppDetails) (graph : Graph) :
  orderly (generateArtifacts FindPlatform B artifact lockFile appDetails graph).
Proof. unfold generateArtifacts. orderly_steps. Qed.

Lemma orderly_loadDockerStep (artifact : OCIArtifact) :
  orderly (loadDockerStep D artifact).
Proof. unfold loadDockerStep. orderly_steps. Qed.

Lemma orderly_loadPodmanStep (artifact : OCIArtifact) :
  orderly (loadPodmanStep D artifact).
Proof. unfold loadPodmanStep. orderly_steps. Qed.

Lemma orderly_pushStep (artifact : OCIArtifact) :
  orderly (pushStep D artifact).
Proof. unfold pushStep. orderly_steps. Qed.

Lemma orderly_buildAndGenerate (artifact : OCIArtifact) :
  orderly (buildAndGenerate FindPlatform B artifact).
Proof.
  unfold buildAndGenerate.
  apply orderly_bind; [apply orderly_prepareWorkspace | intros _].
  apply orderly_bind; [apply orderly_invokeBuilder | intros _].
  apply orderly_bind; [apply orderly_readLockAndClosure|].
  intros [[lockFile appDetails] graph]. apply orderly_generateArtifacts.
Qed.

Lemma orderly_distribution (artifact : OCIArtifact) :
  orderly (loadDockerStep D artifact ;;
           loadPodmanStep D artifact ;;
           pushStep D artifact).
Proof.
  apply orderly_bind; [apply orderly_loadDockerStep | intros _].
  apply orderly_bind; [apply orderly_loadPodmanStep | intros _].
  apply orderly_pushStep.
Qed.

Lemma orderly_buildStates (artifact : OCIArtifact) :
  orderly (buildStates FindPlatform B D artifact).
Proof.
  unfold buildStates.
  apply orderly_bind; [apply orderly_buildAndGenerate | intros _].
  apply orderly_distribution.
Qed.

Lemma bind_Ret_inv {A B0 : Type} (c : M A) (k : A -> M B0)
    (s s' : State) (b : B0) :
  bind c k s = (s', Ret b) ->
  exists s1 a, c s = (s1, Ret a) /\ k a s1 = (s', Ret b).
Proof.
  unfold bind. destruct (c s) as [s1 [a|code]]; [|discriminate].
  intros H. now exists s1, a.
Qed.

Lemma buildKeeps_output (s s' : State) :
  buildKeeps s s' -> output (flags s) <> "" ->
  output (flags s') = output (flags s).
Proof. intros (_ & _ & [H|[H _]] & _) Hne; [assumption | contradiction]. Qed.

Lemma buildKeeps_stdout (s s' : State) (line : Style * string) :
  buildKeeps s s' -> In line (stdout s) -> In line (stdout s').
Proof.
  intros (_ & _ & _ & out & ->) Hin. apply in_or_app. now left.
Qed.

(** When PrepareWorkspace is passed, [output] is not empty. *)
Lemma prepareWorkspace_output (s s' : State) :
  prepareWorkspace B s = (s', Ret tt) ->
  output (flags s') <> ""
  /\ (output (flags s) = "" -> output (flags s') = "bsf-result").
Proof.
  unfold prepareWorkspace. intros H.
  apply bind_Ret_inv in H as (s1 & [[sc fh] e1] & H1 & H).
  apply bind_Ret_inv in H as (s2 & [] & H2 & H).
  apply bind_Ret_inv in H as (s3 & e3 & H3 & H).
  apply bind_Ret_inv in H as (s4 & [] & H4 & H).
  rewrite bind_getFlags, default_output in H.
  set (s5 := if String.eqb (output (flags s4)) ""
             then setFlags s4 (setOutput (flags s4) "bsf-result") else s4) in H.
  assert (Hkeep : buildKeeps s5 s').
  { match type of H with
    | ?c s5 = _ => assert (Hord : orderly c) by orderly_steps
    end.
    exact (proj1 (Hord _ _ _ H)). }
  assert (Hout : output (flags s5) <> "").
  { subst s5. destruct (String.eqb_spec (output (flags s4)) "") as [E|E];
      [discriminate | exact E]. }
  assert (Hpre : buildKeeps s s4).
  { eapply buildKeeps_trans; [exact (proj1 (orderly_external _ _ _ _ H1))|].
    eapply buildKeeps_trans; [exact (proj1 (orderly_exitOnError _ _ _ _ H2))|].
    eapply buildKeeps_trans; [exact (proj1 (orderly_external _ _ _ _ H3))|].
    exact (proj1 (orderly_exitOnError _ _ _ _ H4)). }
  rewrite (buildKeeps_output _ _ Hkeep Hout).
  split; [exact Hout|].
  intros Hempty. subst s5.
  destruct Hpre as (_ & _ & [Ho|[_ Ho]] & _);
    destruct (String.eqb_spec (output (flags s4)) "") as [E|E];
    try reflexivity; [congruence | exact Ho].
Qed.

(** GenerateArtifacts ends with the message that the build completed. *)
Lemma generateArtifacts_message (artifact : OCIArtifact)
    (lockFile : LockFile) (appDetails : AppDetails) (graph : Graph)
    (s s' : State) :
  generateArtifacts FindPlatform B artifact lockFile appDetails graph s
  = (s', Ret tt) ->
  In (Render SucessStyle
        ["Build completed successfully, please check the "
         ++ output (flags s) ++ " directory"]) (stdout s').
Proof.
  unfold generateArtifacts. rewrite bind_getFlags.
  destruct (FindPlatform (platform (flags s))) as [tos tarch].
  intros H.
  apply bind_Ret_inv in H as (s1 & e1 & H1 & H).
  apply bind_Ret_inv in H as (s2 & [] & H2 & H).
  injection H as <-. simpl. apply in_or_app. right. now left.
Qed.

Lemma loadDockerStep_off (artifact : OCIArtifact) (s : State) :
  loadDocker (flags s) = false -> loadDockerStep D artifact s = (s, Ret tt).
Proof.
  intros H. unfold loadDockerStep. rewrite bind_getFlags. now rewrite H.
Qed.

Lemma loadPodmanStep_off (artifact : OCIArtifact) (s : State) :
  loadPodman (flags s) = false -> loadPodmanStep D artifact s = (s, Ret tt).
Proof.
  intros H. unfold loadPodmanStep. rewrite bind_getFlags. now rewrite H.
Qed.

Lemma pushStep_off (artifact : OCIArtifact) (s : State) :
  push (flags s) = false -> pushStep D artifact s = (s, Ret tt).
Proof.
  intros H. unfold pushStep. rewrite bind_getFlags. now rewrite H.
Qed.

(** When the build states return, the build was announced as completed, in
    a directory that has a name. *)
Lemma buildStates_success (artifact : OCIArtifact) (s s' : State) :
  buildStates FindPlatform B D artifact s = (s', Ret tt) ->
  output (flags s') <> ""
  /\ (output (flags s) = "" -> output (flags s') = "bsf-result")
  /\ In (Render SucessStyle
           ["Build completed successfully, please check the "
            ++ output (flags s') ++ " directory"]) (stdout s').
Proof.
  unfold buildStates. intros H.
  apply bind_Ret_inv in H as (s4 & [] & Hgen & Hdist).
  unfold buildAndGenerate in Hgen.
  apply bind_Ret_inv in Hgen as (s1 & [] & H1 & Hgen).
  apply bind_Ret_inv in Hgen as (s2 & [] & H2 & Hgen).
  apply bind_Ret_inv in Hgen as (s3 & [[lockFile appDetails] graph] & H3 & H4).
  destruct (prepareWorkspace_output _ _ H1) as [Hout Hdef].
  assert (K2 := proj1 (orderly_invokeBuilder _ _ _ _ H2)).
  assert (K3 := proj1 (orderly_readLockAndClosure _ _ _ H3)).
  assert (K4 := proj1 (orderly_generateArtifacts _ _ _ _ _ _ _ H4)).
  assert (K5 := proj1 (orderly_distribution _ _ _ _ Hdist)).
  assert (O2 := buildKeeps_output _ _ K2 Hout).
  assert (O3 : output (flags s3) = output (flags s1)).
  { rewrite <- O2. apply (buildKeeps_output _ _ K3). congruence. }
  assert (O4 : output (flags s4) = output (flags s1)).
  { rewrite <- O3. apply (buildKeeps_output _ _ K4). congruence. }
  assert (O5 : output (flags s') = output (flags s1)).
  { rewrite <- O4. apply (buildKeeps_output _ _ K5). congruence. }
  rewrite O5. split; [exact Hout|]. split; [exact Hdef|].
  apply (buildKeeps_stdout _ _ _ K5).
  rewrite <- O3. exact (generateArtifacts_message _ _ _ _ _ _ H4).
Qed.

(** X16. Whenever the build states end the process, the status is 1 and
    the last line the command printed is an error line: no tool failure
    ends the command silently or with another status. *)
Theorem buildStates_fail_loudly (artifact : OCIArtifact) (s s' : State)
    (code : Z) :
  buildStates FindPlatform B D artifact s = (s', Exited code) ->
  code = 1 /\ exists out msg, stdout s' = (out ++ [(ErrorStyle, msg)])%list.
Proof.
  intros H. exact (proj2 (orderly_buildStates artifact s s' _ H)).
Qed.

(** X17. Whatever the tools do and however the build states end, the
    configuration in memory is not touched, no flag changes except
    [output], which can only go from empty to ["bsf-result"], and the lines
    printed before are still there, in front of the new ones. *)
Theorem buildStates_keep (artifact : OCIArtifact) (s s' : State)
    (r : Res unit) :
  buildStates FindPlatform B D artifact s = (s', r) ->
  confObj s' = confObj s
  /\ setOutput (flags s') (output (flags s)) = flags s
  /\ (output (flags s') = output (flags s)
      \/ (output (flags s) = "" /\ output (flags s') = "bsf-result"))
  /\ exists out, stdout s' = (stdout s ++ out)%list.
Proof.
  intros H. exact (proj1 (orderly_buildStates artifact s s' r H)).
Qed.

(** X18. Without [--load-docker], [--load-podman] and [--push], the build
    states are the build alone: the Docker, Podman and registry tools have
    no part in the result. *)
Theorem no_distribution_unless_asked (artifact : OCIArtifact) (s : State) :
  loadDocker (flags s) = false ->
  loadPodman (flags s) = false ->
  push (flags s) = false ->
  buildStates FindPlatform B D artifact s
  = buildAndGenerate FindPlatform B artifact s.
Proof.
  intros Hd Hp Hr. unfold buildStates, bind at 1.
  destruct (buildAndGenerate FindPlatform B artifact s) as [s1 [[]|code]] eqn:Hgen;
    [|reflexivity].
  destruct (orderly_buildAndGenerate artifact _ _ _ Hgen)
    as [(_ & Hfl & _ & _) _].
  assert (Hd1 : loadDocker (flags s1) = false)
    by (rewrite <- Hd, <- Hfl; reflexivity).
  assert (Hp1 : loadPodman (flags s1) = false)
    by (rewrite <- Hp, <- Hfl; reflexivity).
  assert (Hr1 : push (flags s1) = false)
    by (rewrite <- Hr, <- Hfl; reflexivity).
  rewrite (bind_Ret _ _ _ _ _ (loadDockerStep_off artifact s1 Hd1)).
  rewrite (bind_Ret _ _ _ _ _ (loadPodmanStep_off artifact s1 Hp1)).
  now apply pushStep_off.
Qed.

End BuildStatesFacts.

(** X19. The endpoint for the Docker daemon is the one the context map
    gives for the current context, ["default"] standing for an empty
    context name; without a map, or without an entry for that context, it
    is the local socket [unix:///var/run/docker.sock]. *)
Theorem dockerEndpoint_fallback (currentContext : string)
    (contextEP : option (gmap string string)) :
  dockerEndpoint currentContext contextEP
  = match contextEP with
    | Some m =>
        match m !! (if String.eqb currentContext "" then "default"
                    else currentContext) with
        | Some endpoint => endpoint
        | None => "unix:///var/run/docker.sock"
        end
    | None => "unix:///var/run/docker.sock"
    end.
Proof.
  unfold dockerEndpoint.
  set (ctx := if String.eqb currentContext "" then "default"
              else currentContext).
  destruct contextEP as [m|].
  - destruct (m !! ctx) as [endpoint|] eqn:Hm.
    + now rewrite Hm.
    + now rewrite lookup_insert_eq.
  - rewrite lookup_empty. now rewrite lookup_insert_eq.
Qed.

(** ** The whole command *)

Section WholeCommand.

Variable FindPlatform : string -> string * string.
Variable Validate : OCIArtifact -> Config -> option string.
Variable ModifyDockerfile : string -> bool -> string -> list string * error.
Variable hclDecode : string -> Config + (string * string).
Variable hclEncode : Config -> string * error.
Variable Errorf0 : string -> string.
Variables SearchClient FileHandlers LockFile AppDetails Graph : Type.
Variable B : BuildTools SearchClient FileHandlers LockFile AppDetails Graph.
Variable D : DistTools.

(** X20. The command ends in one of two ways.  When it ends the process,
    the status is 1.  When it returns, which is status 0, the build was
    announced as completed in the output directory, whose name is not
    empty. *)
Theorem command_outcome (args : list string) (s s' : State) (r : Res unit) :
  Run FindPlatform Validate ModifyDockerfile hclDecode hclEncode Errorf0
    (buildStates FindPlatform B D) args s = (s', r) ->
  match r with
  | Exited code => code = 1
  | Ret _ =>
      output (flags s') <> ""
      /\ In (Render SucessStyle
               ["Build completed successfully, please check the "
                ++ output (flags s') ++ " directory"]) (stdout s')
  end.
Proof.
  destruct (Run_two_ways FindPlatform Validate ModifyDockerfile hclDecode
              hclEncode Errorf0 args s) as [[s1 Hexit]|(a & s2 & Hbuild)].
  - rewrite Hexit. now intros [= <- <-].
  - rewrite Hbuild. intros H. destruct r as [[]|code].
    + destruct (buildStates_success FindPlatform _ _ _ _ _ B D a s2 s' H)
        as (Hout & _ & Hline).
      split; assumption.
    + exact (proj1 (proj2 (orderly_buildStates FindPlatform _ _ _ _ _ B D
                             a s2 s' _ H))).
Qed.

End WholeCommand.

(** ** [FindProjectType] *)

Section LangdetectFacts.

Variable Getwd : State -> string * error.
Variable filepath_Join : string -> string -> string.
Variable filepath_Glob : string -> State -> list string * error.
Variable filepath_Base : string -> string.
Variable TrimSpace : string -> string.

Lemma projectLoop_skip (pre rest : list string) (s : State) :
  (forall f, In f pre -> filepath_Base f <> "go.mod") ->
  projectLoop filepath_Base TrimSpace (pre ++ rest) s
  = projectLoop filepath_Base TrimSpace rest s.
Proof.
  induction pre as [|f pre IH]; intros Hpre; [reflexivity|].
  simpl. destruct (String.eqb_spec (filepath_Base f) "go.mod") as [E|_].
  - exfalso. now apply (Hpre f (or_introl eq_refl)).
  - apply IH. intros g Hg. apply Hpre. now right.
Qed.

Lemma moduleLoop_skip (before rest : list string) :
  (forall line, In line before -> String.prefix "module" line = false) ->
  moduleLoop TrimSpace (before ++ rest) = moduleLoop TrimSpace rest.
Proof.
  induction before as [|line before IH]; intros Hbefore; [reflexivity|].
  simpl. rewrite (Hbefore line (or_introl eq_refl)).
  apply IH. intros l Hl. apply Hbefore. now right.
Qed.

(** X21. The module name is read from the first line of [go.mod] that
    starts with [module]: it is what follows these six bytes, trimmed,
    whether or not a space follows them; later lines are not looked at.
    Without such a line the name is empty. *)
Theorem moduleLoop_first_module_line (lines : list string) :
  (forall (before : list string) (rest : string) (after : list string),
     lines = (before ++ ("module" ++ rest)%string :: after)%list ->
     (forall line, In line before -> String.prefix "module" line = false) ->
     moduleLoop TrimSpace lines = TrimSpace rest)
  /\ ((forall line, In line lines -> String.prefix "module" line = false) ->
      moduleLoop TrimSpace lines = "").
Proof.
  split.
  - intros before rest after -> Hbefore.
    rewrite (moduleLoop_skip _ _ Hbefore). cbn [moduleLoop].
    assert (Hp : String.prefix "module" ("module" ++ rest) = true)
      by (apply prefix_append; now exists rest).
    rewrite Hp. reflexivity.
  - intros Hnone. rewrite <- (app_nil_r lines).
    now rewrite (moduleLoop_skip _ _ Hnone).
Qed.

(** X22. When the directory listing holds no file whose base name is
    [go.mod], the project type is [Unknown], without details and without
    error. *)
Theorem FindProjectType_unknown (s : State) (currentDir : string)
    (files : list string) :
  Getwd s = (currentDir, None) ->
  filepath_Glob (filepath_Join currentDir "*") s = (files, None) ->
  (forall f, In f files -> filepath_Base f <> "go.mod") ->
  FindProjectType Getwd filepath_Join filepath_Glob filepath_Base TrimSpace s
  = (s, Ret (Unknown, None, None)).
Proof.
  intros Hwd Hglob Hnone. unfold FindProjectType. rewrite Hwd, Hglob.
  rewrite <- (app_nil_r files).
  now rewrite (projectLoop_skip _ _ _ Hnone).
Qed.

(** X23. The first listed file whose base name is [go.mod] decides, by the
    outcome of its read: when the read succeeds, the project is a Go
    module whose name is taken from the lines of the content; when it
    fails, the error of the read, whatever it is, is returned with an
    empty project type.  Files listed after it play no part. *)
Theorem FindProjectType_go_mod (s : State) (currentDir : string)
    (pre : list string) (file : string) (post : list string) :
  Getwd s = (currentDir, None) ->
  filepath_Glob (filepath_Join currentDir "*") s
  = ((pre ++ file :: post)%list, None) ->
  (forall f, In f pre -> filepath_Base f <> "go.mod") ->
  filepath_Base file = "go.mod" ->
  exists content readErr,
    os_ReadFile file s = (s, Ret (content, readErr))
    /\ FindProjectType Getwd filepath_Join filepath_Glob filepath_Base
         TrimSpace s
       = (s, Ret match readErr with
                 | None =>
                     (GoModuleType,
                      Some (mkProjectDetails ""
                              (moduleLoop TrimSpace
                                 (strings.Split content LF))),
                      None)
                 | Some err => ("", None, Some err)
                 end).
Proof.
  intros Hwd Hglob Hpre Hbase.
  destruct (os_ReadFile_returns file s) as (content & readErr & Hread).
  exists content, readErr. split; [exact Hread|].
  unfold FindProjectType. rewrite Hwd, Hglob.
  rewrite (projectLoop_skip _ _ _ Hpre). simpl projectLoop.
  rewrite Hbase, String.eqb_refl. unfold bind. rewrite Hread.
  now destruct readErr.
Qed.

(** X24. [FindProjectType] never changes the state, and its result has one
    of three shapes: an error with an empty project type and no details;
    [Unknown] without details; or [GoModule] with details. *)
Theorem FindProjectType_shapes (s : State) :
  exists ptype details err,
    FindProjectType Getwd filepath_Join filepath_Glob filepath_Base TrimSpace s
    = (s, Ret (ptype, details, err))
    /\ ((err <> None /\ ptype = "" /\ details = None)
        \/ (err = None /\ ptype = Unknown /\ details = None)
        \/ (err = None /\ ptype = GoModuleType /\ details <> None)).
Proof.
  unfold FindProjectType.
  destruct (Getwd s) as [currentDir [e|]].
  { eexists _, _, _. split; [reflexivity|]. left. now repeat split. }
  destruct (filepath_Glob (filepath_Join currentDir "*") s) as [files [e|]].
  { eexists _, _, _. split; [reflexivity|]. left. now repeat split. }
  induction files as [|f files IH].
  - eexists _, _, _. split; [reflexivity|]. right. left. now repeat split.
  - simpl. destruct (String.eqb (filepath_Base f) "go.mod"); [|exact IH].
    unfold bind, os_ReadFile. destruct (fs s !! f).
    + eexists _, _, _. split; [reflexivity|]. right. right. now repeat split.
    + eexists _, _, _. split; [reflexivity|]. left. now repeat split.
Qed.

End LangdetectFacts.

(* ===================================================================== *)
(** ** The further properties at sample inputs *)
(* ===================================================================== *)

(** Two artifacts share the image name: the first is replaced, although
    the second was renamed. *)
Lemma ModifyConfig_replaces_first_witness :
  ModifyConfig namesEncode "svc:latest" (setName svcCopy "svc:v2")
    (stateOf noFlags ∅ (Some (configOf [web; svc; svcCopy])))
  = (stateOf noFlags
       {[ "bsf.hcl" := "web:latest" ++ LF ++ "svc:v2" ++ LF ++ "svc:latest" ]}
       (Some (configOf [web; setName svcCopy "svc:v2"; svcCopy])),
     Ret None).
Proof.
  apply (ModifyConfig_replaces_first namesEncode "svc:latest"
           (setName svcCopy "svc:v2")
           (stateOf noFlags ∅ (Some (configOf [web; svc; svcCopy])))
           (configOf [web; svc; svcCopy]) [web] svc [svcCopy]).
  - reflexivity.
  - reflexivity.
  - intros x [<-|[]]. discriminate.
  - reflexivity.
  - reflexivity.
  - simpl. apply not_elem_of_empty.
Defined.


Lemma ModifyConfig_frame_witness :
  exists s' err config',
    ModifyConfig namesEncode "svc:latest" (setName svc "svc:v2")
      (stateOf noFlags ∅ (Some (configOf [web; svc]))) = (s', Ret err)
    /\ flags s' = noFlags /\ stdout s' = [] /\ denied s' = ∅
    /\ (forall p, p <> "bsf.hcl" -> fs s' !! p = (∅ : gmap string string) !! p)
    /\ confObj s' = Some config'
    /\ length (OCIArtifact_ config') = 2%nat
    /\ setOCIArtifact config' [web; svc] = configOf [web; svc].
Proof.
  apply (ModifyConfig_frame namesEncode "svc:latest" (setName svc "svc:v2")
           (stateOf noFlags ∅ (Some (configOf [web; svc])))
           (configOf [web; svc])).
  reflexivity.
Defined.

Lemma genOCIAttrName_dev_differs_witness :
  genOCIAttrName devFlags "pkgs" "linux/amd64" svc
  <> genOCIAttrName plainFlags "pkgs" "linux/amd64" svc.
Proof.
  apply (genOCIAttrName_dev_differs devFlags plainFlags "pkgs" "linux/amd64"
           svc svc); reflexivity.
Defined.

Lemma selection_sound_witness :
  exists pre rest,
    OCIArtifact_ (configOf [web; svc; svcCopy]) = (pre ++ svc :: rest)%list
    /\ Artifact svc = "svc"
    /\ (forall x, In x (pre ++ [svc]) ->
        nameRequired x (configOf [web; svc; svcCopy]) = None)
    /\ (forall x, In x pre -> Artifact x <> "svc").
Proof.
  apply (selection_sound amd64Host nameRequired noFlags
           (configOf [web; svc; svcCopy]) "linux/amd64" "svc" svc
           "linux/amd64").
  reflexivity.
Defined.

Lemma failure_kinds_witness :
  zeroOCIArtifact = zeroOCIArtifact /\ "" = ""
  /\ ((~ supported (resolvedPlatform amd64Host "linux/amd64")
       /\ "error: No such environment found. Valid oci environment that can be built are: svc, web"
          = "Platform " ++ platform noFlags
            ++ " is not supported. Supported platforms are linux/amd64, linux/arm64")
      \/ (supported (resolvedPlatform amd64Host "linux/amd64")
          /\ exists x msg,
               In x (OCIArtifact_ (configOf [svc; web]))
               /\ nameRequired x (configOf [svc; web]) = Some msg
               /\ "error: No such environment found. Valid oci environment that can be built are: svc, web"
                  = "Config for export block " ++ Name x ++ " is invalid"
                    ++ LF ++ " Error: " ++ msg)
      \/ (supported (resolvedPlatform amd64Host "linux/amd64")
          /\ (forall x, In x (OCIArtifact_ (configOf [svc; web])) ->
              nameRequired x (configOf [svc; web]) = None)
          /\ (forall x, In x (OCIArtifact_ (configOf [svc; web])) ->
              Artifact x <> "db")
          /\ "error: No such environment found. Valid oci environment that can be built are: svc, web"
             = "error: No such environment found. Valid oci environment that can be built are: "
               ++ strings.Join
                    (map Artifact (OCIArtifact_ (configOf [svc; web]))) ", ")).
Proof.
  apply (failure_kinds amd64Host nameRequired noFlags (configOf [svc; web])
           "linux/amd64" "db" zeroOCIArtifact ""
           "error: No such environment found. Valid oci environment that can be built are: svc, web").
  reflexivity.
Defined.

Lemma accepted_variant_builds_unknown_witness :
  supported "linux/arm64/v8"
  /\ genOCIAttrName plainFlags "svc" "linux/arm64/v8" svc
     = "bsf/.#ociImages.unknown.ociImage_" ++ "svc" ++ "_" ++ "app-as-dir".
Proof.
  apply (accepted_variant_builds_unknown amd64Host nameRequired noFlags
           plainFlags (configOf [svc]) "linux/arm64/v8" "svc" svc svc
           "linux/arm64/v8" "svc").
  - reflexivity.
  - discriminate.
  - intros [H|[H|[]]]; discriminate.
Defined.

Lemma Run_hands_over_witness :
  Run amd64Host nameRequired keepLines nameDecode namesEncode plainFormat
    noBuild ["svc" ] plainState
  = noBuild svc
      (mkState (setPlatform (flags plainState) "linux/amd64")
         (fs plainState) (denied plainState) (stdout plainState)
         (Some (configOf [svc]))).
Proof.
  apply (Run_hands_over amd64Host nameRequired keepLines nameDecode
           namesEncode plainFormat noBuild "svc" [] plainState
           (configOf [svc]) svc "linux/amd64"); reflexivity.
Defined.

Lemma Run_persists_tag_witness :
  Run amd64Host nameRequired keepLines nameDecode namesEncode plainFormat
    noBuild ["svc"] tagState
  = noBuild (setName svc (fst (getNewName svc (tag (flags tagState)))))
      (mkState (setPlatform (flags tagState) "linux/amd64")
         (<["bsf.hcl" := "svc:v2"]> (fs tagState))
         (denied tagState) (stdout tagState)
         (Some (setOCIArtifact (configOf [svc])
                  ([] ++ setName svc
                           (fst (getNewName svc (tag (flags tagState))))
                      :: [])))).
Proof.
  apply (Run_persists_tag amd64Host nameRequired keepLines nameDecode
           namesEncode plainFormat noBuild "svc" [] tagState
           (configOf [svc]) svc "linux/amd64" [] svc [] "svc:v2").
  - discriminate.
  - reflexivity.
  - reflexivity.
  - reflexivity.
  - reflexivity.
  - intros x [].
  - reflexivity.
  - reflexivity.
  - apply not_elem_of_empty.
Defined.

Lemma SetPackages_last_wins_witness :
  SetPackages packageDecode packageEncode "git" (mkPackages ["go"] [])
  = ("go", None)
  /\ SetPackages packageDecode packageEncode "go" (mkPackages ["rust"] [])
     = SetPackages packageDecode packageEncode "git" (mkPackages ["rust"] [])
  /\ SetPackages packageDecode packageEncode "go" (mkPackages ["go"] [])
     = ("go", None).
Proof.
  apply (SetPackages_last_wins packageDecode packageEncode "git"
           (mkConfig (mkPackages ["git"] []) None None None None [] [] [])
           (mkPackages ["go"] []) (mkPackages ["rust"] []) "go");
    reflexivity.
Defined.

Lemma buildStates_fail_loudly_witness :
  (1 : Z) = 1
  /\ exists out msg,
       stdout (fst (buildStates amd64Host brokenBuildTools okDistTools svc
                      (stateOf plainFlags ∅ None)))
       = (out ++ [(ErrorStyle, msg)])%list.
Proof.
  apply (buildStates_fail_loudly amd64Host unit unit string unit unit
           brokenBuildTools okDistTools svc (stateOf plainFlags ∅ None)).
  vm_compute. reflexivity.
Defined.

Lemma buildStates_keep_witness :
  confObj (fst (buildStates amd64Host okBuildTools okDistTools svc
                  (stateOf plainFlags ∅ (Some (configOf [svc])))))
  = Some (configOf [svc])
  /\ setOutput
       (flags (fst (buildStates amd64Host okBuildTools okDistTools svc
                      (stateOf plainFlags ∅ (Some (configOf [svc]))))))
       "" = plainFlags
  /\ (output
        (flags (fst (buildStates amd64Host okBuildTools okDistTools svc
                       (stateOf plainFlags ∅ (Some (configOf [svc]))))))
      = ""
      \/ ("" = ""
          /\ output
               (flags (fst (buildStates amd64Host okBuildTools okDistTools svc
                              (stateOf plainFlags ∅ (Some (configOf [svc]))))))
             = "bsf-result"))
  /\ exists out,
       stdout (fst (buildStates amd64Host okBuildTools okDistTools svc
                      (stateOf plainFlags ∅ (Some (configOf [svc])))))
       = ([] ++ out)%list.
Proof.
  apply (buildStates_keep amd64Host unit unit string unit unit
           okBuildTools okDistTools svc
           (stateOf plainFlags ∅ (Some (configOf [svc]))) _ (Ret tt)).
  vm_compute. reflexivity.
Defined.

Lemma no_distribution_unless_asked_witness :
  buildStates amd64Host okBuildTools okDistTools svc
    (stateOf plainFlags ∅ None)
  = buildAndGenerate amd64Host okBuildTools svc (stateOf plainFlags ∅ None).
Proof.
  apply (no_distribution_unless_asked amd64Host unit unit string unit unit
           okBuildTools okDistTools svc (stateOf plainFlags ∅ None));
    reflexivity.
Defined.

Lemma command_outcome_witness :
  output
    (flags (fst (Run amd64Host nameRequired keepLines nameDecode namesEncode
                   plainFormat
                   (buildStates amd64Host okBuildTools okDistTools) ["svc"]
                   (stateOf plainFlags {[ "bsf.hcl" := "svc:latest" ]} None))))
  <> ""
  /\ In (Render SucessStyle
           ["Build completed successfully, please check the "
            ++ output
                 (flags (fst (Run amd64Host nameRequired keepLines nameDecode
                                namesEncode plainFormat
                                (buildStates amd64Host okBuildTools
                                   okDistTools) ["svc"]
                                (stateOf plainFlags
                                   {[ "bsf.hcl" := "svc:latest" ]} None))))
            ++ " directory"])
        (stdout (fst (Run amd64Host nameRequired keepLines nameDecode
                        namesEncode plainFormat
                        (buildStates amd64Host okBuildTools okDistTools)
                        ["svc"]
                        (stateOf plainFlags {[ "bsf.hcl" := "svc:latest" ]}
                           None)))).
Proof.
  apply (command_outcome amd64Host nameRequired keepLines nameDecode
           namesEncode plainFormat unit unit string unit unit
           okBuildTools okDistTools ["svc"]
           (stateOf plainFlags {[ "bsf.hcl" := "svc:latest" ]} None)
           _ (Ret tt)).
  vm_compute. reflexivity.
Defined.

Lemma moduleLoop_first_module_line_witness :
  moduleLoop trimLeft ["// demo"; "module example.com/demo"; "go 1.21"]
  = trimLeft " example.com/demo"
  /\ moduleLoop trimLeft ["// demo"; "go 1.21"] = "".
Proof.
  split.
  - apply (proj1 (moduleLoop_first_module_line trimLeft
                    ["// demo"; "module example.com/demo"; "go 1.21"])
             ["// demo"] " example.com/demo" ["go 1.21"]).
    + reflexivity.
    + intros line [<-|[]]. reflexivity.
  - apply (proj2 (moduleLoop_first_module_line trimLeft
                    ["// demo"; "go 1.21"])).
    intros line [<-|[<-|[]]]; reflexivity.
Defined.

Lemma FindProjectType_unknown_witness :
  FindProjectType workDir joinPath docsFiles lastElement trimLeft goModState
  = (goModState, Ret (Unknown, None, None)).
Proof.
  apply (FindProjectType_unknown workDir joinPath docsFiles lastElement
           trimLeft goModState "/work" ["/work/README.md"; "/work/LICENSE"]).
  - reflexivity.
  - reflexivity.
  - intros f [<-|[<-|[]]]; discriminate.
Defined.

Lemma FindProjectType_go_mod_witness :
  exists content readErr,
    os_ReadFile "/work/go.mod" goModState
    = (goModState, Ret (content, readErr))
    /\ FindProjectType workDir joinPath workFiles lastElement trimLeft
         goModState
       = (goModState,
          Ret match readErr with
              | None =>
                  (GoModuleType,
                   Some (mkProjectDetails ""
                           (moduleLoop trimLeft (strings.Split content LF))),
                   None)
              | Some err => ("", None, Some err)
              end).
Proof.
  apply (FindProjectType_go_mod workDir joinPath workFiles lastElement
           trimLeft goModState "/work" ["/work/README.md"] "/work/go.mod" []).
  - reflexivity.
  - reflexivity.
  - intros f [<-|[]]. discriminate.
  - reflexivity.
Defined.

Example FindProjectType_demo :
  FindProjectType workDir joinPath workFiles lastElement trimLeft goModState
  = (goModState,
     Ret (GoModuleType, Some (mkProjectDetails "" "example.com/demo"), None)).
Proof. reflexivity. Qed.

Example command_builds_and_loads :
  Run amd64Host nameRequired keepLines nameDecode namesEncode plainFormat
    (buildStates amd64Host okBuildTools okDistTools) ["svc"]
    (stateOf (mkFlags "" "" "" "" false true false false false)
       {[ "bsf.hcl" := "svc:latest" ]} None)
  = (mkState (mkFlags "linux/amd64" "bsf-result" "" "" false true false
                false false)
       (<["bsf.lock" := "svc"]> {[ "bsf.hcl" := "svc:latest" ]}) ∅
       [(HighlightStyle, "Generating artifacts...");
        (SucessStyle,
         "Build completed successfully, please check the bsf-result directory");
        (HighlightStyle, "Loading image to docker daemon...");
        (SucessStyle, "Image svc:latest loaded to docker daemon")]
       (Some (configOf [svc])),
     Ret tt).
Proof. reflexivity. Qed.

